(** * BlackRoad Budget Tracker: the ledger of [budget_tracker.py]

    A shallow embedding of the budget ledger (budgets, budget lines,
    expenditures, audit log) and of the operations that act on it, followed
    by the properties of the ledger stated in the specification.

    Modelling conventions.
    - Python [float] amounts are idealised as exact rationals [Q]; the
      special values (NaN, infinities) and binary rounding are outside the
      model ([rounding_can_overdraw], at the end, shows what rounding
      adds).  [round(x, 2)] is rounding to the nearest hundredth, ties to
      even.
    - FOREIGN KEY constraints cannot fire: every INSERT follows a
      successful SELECT of the row it refers to.
    - The SQLite store is a record of four tables; a table is the list of
      its rows in insertion order.  PRIMARY KEY columns are enforced on
      INSERT ([IntegrityError]).
    - [uuid.uuid4()] and [datetime.utcnow().isoformat()] read the
      environment: the world carries one arbitrary sequence of answers for
      each, and a cursor into it.
    - A connection is a working copy of the store; [commit] writes it back.
      A function that raises before [commit] therefore leaves the store as
      it was.
    - The text of an exception message is abstracted to the kind of its
      raise site; f-strings keep their template and their holes. *)

From Corelib Require Import SpecFloat.
From Stdlib Require Import List String Ascii ZArith QArith Qabs Bool Lia Lqa Permutation Sorted.
Import ListNotations.

Local Open Scope string_scope.
Local Open Scope Q_scope.
Local Open Scope list_scope.

(** ** Data model *)

Inductive BudgetStatus : Type := DRAFT | APPROVED | ACTIVE | CLOSED.

Definition BudgetStatus_eqb (a b : BudgetStatus) : bool :=
  match a, b with
  | DRAFT, DRAFT | APPROVED, APPROVED | ACTIVE, ACTIVE | CLOSED, CLOSED => true
  | _, _ => false
  end.

Record Budget : Type := mkBudget {
  b_title : string;
  b_fiscal_year : Z;
  b_total_amount : Q;
  b_department : string;
  b_status : BudgetStatus;
  b_budget_id : string;
  b_created_at : string;
  b_updated_at : string;
  b_approved_by : option string;
  b_approved_at : option string;
  b_notes : string
}.

Record BudgetLine : Type := mkBudgetLine {
  l_budget_id : string;
  l_category : string;
  l_subcategory : string;
  l_allocated : Q;
  l_spent : Q;
  l_committed : Q;
  l_line_id : string;
  l_created_at : string
}.

Record Expenditure : Type := mkExpenditure {
  e_budget_line_id : string;
  e_vendor : string;
  e_amount : Q;
  e_description : string;
  e_approved_by : string;
  e_date : string;
  e_expenditure_id : string;
  e_created_at : string;
  e_receipt_ref : option string;
  e_category : string
}.

(** A piece of an f-string: literal text, or a hole filled with a number
    whose rendering ([:,.2f]) is left to the formatter. *)
Inductive frag : Type :=
| Txt (s : string)
| Money (q : Q)
| Num (z : Z).

Record AuditRow : Type := mkAuditRow {
  a_log_id : string;
  a_budget_id : string;
  a_action : string;
  a_details : list frag;
  a_timestamp : string;
  a_user_id : string
}.

(** [BudgetLine.available] *)
Definition available (l : BudgetLine) : Q :=
  l_allocated l - l_spent l - l_committed l.

(** ** Comparisons and rounding on amounts *)

(** [x > y] on amounts. *)
Definition Qgtb (x y : Q) : bool := negb (Qle_bool x y).

(** [x < y] on amounts. *)
Definition Qltb (x y : Q) : bool := negb (Qle_bool y x).

(** Nearest integer, ties to the even neighbour. *)
Definition round_half_even (x : Q) : Z :=
  let n := Qnum x in
  let d := Zpos (Qden x) in
  let q := (n / d)%Z in
  let r := (n mod d)%Z in
  match (2 * r ?= d)%Z with
  | Lt => q
  | Gt => (q + 1)%Z
  | Eq => if Z.even q then q else (q + 1)%Z
  end.

(** [round(x, 2)] *)
Definition round2 (x : Q) : Q := round_half_even (x * 100) # 100.

(** [round((spent / allocated * 100), 2) if allocated > 0 else 0.0] *)
Definition pct_of (spent allocated : Q) : Q :=
  if Qgtb allocated 0 then round2 (spent / allocated * 100) else 0.

(** [sum(xs)]: Python adds from the left, starting at [0]. *)
Definition sum (xs : list Q) : Q := fold_left Qplus xs 0.

(** ** The store *)

Record Db : Type := mkDb {
  budgets : list Budget;
  budget_lines : list BudgetLine;
  expenditures : list Expenditure;
  audit_log : list AuditRow
}.

(** The store right after [init_db()] on a new file. *)
Definition empty_db : Db := mkDb [] [] [] [].

Record World : Type := mkWorld {
  disk : Db;
  uuid_src : nat -> string;
  uuid_pos : nat;
  clock_src : nat -> string;
  clock_pos : nat
}.

Definition set_disk (d : Db) (w : World) : World :=
  mkWorld d (uuid_src w) (uuid_pos w) (clock_src w) (clock_pos w).

(** ** Exceptions and the monad of the operations *)

(** The raise sites of [ValueError]:
    - [NotFound]: "Budget ... not found", "Budget line ... not found";
    - [InvalidState]: "Cannot add lines to budget in status: ...",
      "Only draft budgets can be approved", "Only approved budgets can be
      activated", "Only active budgets can be closed";
    - [InsufficientFunds]: "Expenditure ... exceeds available ...",
      "Cannot commit ..., only ... available". *)
Inductive error_kind : Type := NotFound | InvalidState | InsufficientFunds.

Inductive exn : Type :=
| ValueError (k : error_kind)
| IntegrityError.

Inductive result (A : Type) : Type :=
| Ok (a : A)
| Raise (e : exn).
Arguments Ok {A} a.
Arguments Raise {A} e.

Definition M (A : Type) : Type := World -> result A * World.

Definition ret {A} (a : A) : M A := fun w => (Ok a, w).

Definition raise {A} (e : exn) : M A := fun w => (Raise e, w).

Definition bind {A B} (c : M A) (k : A -> M B) : M B :=
  fun w =>
    match c w with
    | (Ok a, w') => k a w'
    | (Raise e, w') => (Raise e, w')
    end.

Notation "x <- c ;; k" := (bind c (fun x => k))
  (at level 61, c at next level, right associativity).
Notation "c ;;; k" := (bind c (fun _ => k))
  (at level 61, right associativity).

(** [uuid.uuid4()] *)
Definition uuid4 : M string :=
  fun w => (Ok (uuid_src w (uuid_pos w)),
            mkWorld (disk w) (uuid_src w) (S (uuid_pos w)) (clock_src w) (clock_pos w)).

(** [datetime.utcnow().isoformat()] *)
Definition utcnow : M string :=
  fun w => (Ok (clock_src w (clock_pos w)),
            mkWorld (disk w) (uuid_src w) (uuid_pos w) (clock_src w) (S (clock_pos w))).

(** [get_connection()]: a working copy of the store. *)
Definition get_connection : M Db := fun w => (Ok (disk w), w).

(** [conn.commit()] *)
Definition commit (conn : Db) : M unit := fun w => (Ok tt, set_disk conn w).

(** The outcome of a statement that may violate a constraint. *)
Definition execute {A} (r : result A) : M A :=
  match r with
  | Ok a => ret a
  | Raise e => raise e
  end.

(** [init_db()]: CREATE TABLE IF NOT EXISTS on a store that has its tables. *)
Definition init_db : M unit := ret tt.

(** ** SQL statements *)

(** [SELECT * FROM budgets WHERE budget_id=?] with [fetchone()] *)
Definition select_budget (conn : Db) (budget_id : string) : option Budget :=
  find (fun r => String.eqb (b_budget_id r) budget_id) (budgets conn).

(** [SELECT * FROM budget_lines WHERE line_id=?] with [fetchone()] *)
Definition select_line (conn : Db) (line_id : string) : option BudgetLine :=
  find (fun r => String.eqb (l_line_id r) line_id) (budget_lines conn).

(** [INSERT INTO budgets VALUES (...)] *)
Definition insert_budget (conn : Db) (row : Budget) : result Db :=
  if existsb (fun r => String.eqb (b_budget_id r) (b_budget_id row)) (budgets conn)
  then Raise IntegrityError
  else Ok (mkDb (budgets conn ++ [row]) (budget_lines conn)
                (expenditures conn) (audit_log conn)).

(** [INSERT INTO budget_lines VALUES (...)] *)
Definition insert_line (conn : Db) (row : BudgetLine) : result Db :=
  if existsb (fun r => String.eqb (l_line_id r) (l_line_id row)) (budget_lines conn)
  then Raise IntegrityError
  else Ok (mkDb (budgets conn) (budget_lines conn ++ [row])
                (expenditures conn) (audit_log conn)).

(** [INSERT INTO expenditures VALUES (...)] *)
Definition insert_expenditure (conn : Db) (row : Expenditure) : result Db :=
  if existsb (fun r => String.eqb (e_expenditure_id r) (e_expenditure_id row))
             (expenditures conn)
  then Raise IntegrityError
  else Ok (mkDb (budgets conn) (budget_lines conn)
                (expenditures conn ++ [row]) (audit_log conn)).

(** [INSERT INTO audit_log VALUES (...)] *)
Definition insert_audit (conn : Db) (row : AuditRow) : result Db :=
  if existsb (fun r => String.eqb (a_log_id r) (a_log_id row)) (audit_log conn)
  then Raise IntegrityError
  else Ok (mkDb (budgets conn) (budget_lines conn)
                (expenditures conn) (audit_log conn ++ [row])).

(** [UPDATE budgets SET ... WHERE budget_id=?] *)
Definition update_budget (conn : Db) (budget_id : string)
    (set : Budget -> Budget) : Db :=
  mkDb (map (fun r => if String.eqb (b_budget_id r) budget_id then set r else r)
            (budgets conn))
       (budget_lines conn) (expenditures conn) (audit_log conn).

(** [UPDATE budget_lines SET ... WHERE line_id=?] *)
Definition update_line (conn : Db) (line_id : string)
    (set : BudgetLine -> BudgetLine) : Db :=
  mkDb (budgets conn)
       (map (fun r => if String.eqb (l_line_id r) line_id then set r else r)
            (budget_lines conn))
       (expenditures conn) (audit_log conn).

Definition set_updated_at (now : string) (b : Budget) : Budget :=
  mkBudget (b_title b) (b_fiscal_year b) (b_total_amount b) (b_department b)
           (b_status b) (b_budget_id b) (b_created_at b) now
           (b_approved_by b) (b_approved_at b) (b_notes b).

Definition set_status (s : BudgetStatus) (now : string) (b : Budget) : Budget :=
  mkBudget (b_title b) (b_fiscal_year b) (b_total_amount b) (b_department b)
           s (b_budget_id b) (b_created_at b) now
           (b_approved_by b) (b_approved_at b) (b_notes b).

Definition set_approved (by_ : string) (now : string) (b : Budget) : Budget :=
  mkBudget (b_title b) (b_fiscal_year b) (b_total_amount b) (b_department b)
           APPROVED (b_budget_id b) (b_created_at b) now
           (Some by_) (Some now) (b_notes b).

(** [SET spent=spent+?] *)
Definition add_spent (amount : Q) (l : BudgetLine) : BudgetLine :=
  mkBudgetLine (l_budget_id l) (l_category l) (l_subcategory l) (l_allocated l)
               (l_spent l + amount) (l_committed l) (l_line_id l) (l_created_at l).

(** [SET committed=committed+?] *)
Definition add_committed (amount : Q) (l : BudgetLine) : BudgetLine :=
  mkBudgetLine (l_budget_id l) (l_category l) (l_subcategory l) (l_allocated l)
               (l_spent l) (l_committed l + amount) (l_line_id l) (l_created_at l).

(** ** Operations *)

Definition _log (budget_id action : string) (details : list frag) : M unit :=
  conn <- get_connection ;;
  log_id <- uuid4 ;;
  ts <- utcnow ;;
  conn <- execute (insert_audit conn
                     (mkAuditRow log_id budget_id action details ts "system")) ;;
  commit conn.

Definition create_budget (title : string) (fiscal_year : Z) (total_amount : Q)
    (department notes : string) : M Budget :=
  init_db ;;;
  budget_id <- uuid4 ;;
  created_at <- utcnow ;;
  updated_at <- utcnow ;;
  let budget := mkBudget title fiscal_year total_amount department DRAFT
                         budget_id created_at updated_at None None notes in
  conn <- get_connection ;;
  conn <- execute (insert_budget conn budget) ;;
  commit conn ;;;
  _log budget_id "CREATE_BUDGET"
       [Txt "Budget for "; Txt department; Txt " FY"; Num fiscal_year] ;;;
  ret budget.

Definition add_budget_line (budget_id category subcategory : string)
    (allocated : Q) : M BudgetLine :=
  conn <- get_connection ;;
  match select_budget conn budget_id with
  | None => raise (ValueError NotFound)
  | Some row =>
      if negb (BudgetStatus_eqb (b_status row) DRAFT
               || BudgetStatus_eqb (b_status row) APPROVED)
      then raise (ValueError InvalidState)
      else
        line_id <- uuid4 ;;
        created_at <- utcnow ;;
        let line := mkBudgetLine budget_id category subcategory allocated
                                 0 0 line_id created_at in
        conn <- execute (insert_line conn line) ;;
        now <- utcnow ;;
        let conn := update_budget conn budget_id (set_updated_at now) in
        commit conn ;;;
        _log budget_id "ADD_LINE"
             [Txt category; Txt "/"; Txt subcategory; Txt ": $"; Money allocated] ;;;
        ret line
  end.

Definition approve_budget (budget_id approved_by : string) : M bool :=
  conn <- get_connection ;;
  match select_budget conn budget_id with
  | None => raise (ValueError NotFound)
  | Some row =>
      if negb (BudgetStatus_eqb (b_status row) DRAFT)
      then raise (ValueError InvalidState)
      else
        now <- utcnow ;;
        let conn := update_budget conn budget_id (set_approved approved_by now) in
        commit conn ;;;
        _log budget_id "APPROVE_BUDGET" [Txt "Approved by "; Txt approved_by] ;;;
        ret true
  end.

Definition activate_budget (budget_id : string) : M bool :=
  conn <- get_connection ;;
  match select_budget conn budget_id with
  | None => raise (ValueError NotFound)
  | Some row =>
      if negb (BudgetStatus_eqb (b_status row) APPROVED)
      then raise (ValueError InvalidState)
      else
        now <- utcnow ;;
        let conn := update_budget conn budget_id (set_status ACTIVE now) in
        commit conn ;;;
        _log budget_id "ACTIVATE_BUDGET" [] ;;;
        ret true
  end.

Definition close_budget (budget_id : string) : M bool :=
  conn <- get_connection ;;
  match select_budget conn budget_id with
  | None => raise (ValueError NotFound)
  | Some row =>
      if negb (BudgetStatus_eqb (b_status row) ACTIVE)
      then raise (ValueError InvalidState)
      else
        now <- utcnow ;;
        let conn := update_budget conn budget_id (set_status CLOSED now) in
        commit conn ;;;
        _log budget_id "CLOSE_BUDGET" [] ;;;
        ret true
  end.

(** [date or datetime.utcnow().isoformat()[:10]]: [None] and the empty
    string both take the default. *)
Definition date_or_today (date : option string) : M string :=
  match date with
  | Some (String c s) => ret (String c s)
  | _ => now <- utcnow ;; ret (substring 0 10 now)
  end.

Definition record_expenditure (line_id vendor : string) (amount : Q)
    (description approved_by : string) (date receipt_ref : option string)
    : M Expenditure :=
  conn <- get_connection ;;
  match select_line conn line_id with
  | None => raise (ValueError NotFound)
  | Some line =>
      let avail := l_allocated line - l_spent line - l_committed line in
      if Qgtb amount avail
      then raise (ValueError InsufficientFunds)
      else
        exp_date <- date_or_today date ;;
        expenditure_id <- uuid4 ;;
        created_at <- utcnow ;;
        let exp := mkExpenditure line_id vendor amount description approved_by
                                 exp_date expenditure_id created_at receipt_ref
                                 (l_category line) in
        conn <- execute (insert_expenditure conn exp) ;;
        let conn := update_line conn line_id (add_spent amount) in
        commit conn ;;;
        _log (l_budget_id line) "RECORD_EXPENDITURE"
             [Txt vendor; Txt ": $"; Money amount; Txt " — "; Txt description] ;;;
        ret exp
  end.

Definition commit_funds (line_id : string) (amount : Q) (description : string)
    : M bool :=
  conn <- get_connection ;;
  match select_line conn line_id with
  | None => raise (ValueError NotFound)
  | Some line =>
      let avail := l_allocated line - l_spent line - l_committed line in
      if Qgtb amount avail
      then raise (ValueError InsufficientFunds)
      else
        let conn := update_line conn line_id (add_committed amount) in
        commit conn ;;;
        _log (l_budget_id line) "COMMIT_FUNDS"
             [Txt "$"; Money amount; Txt " — "; Txt description] ;;;
        ret true
  end.

(** ** Variance analysis *)

(** [ORDER BY category, subcategory] (binary collation); rows that compare
    equal keep their insertion order. *)
Definition line_leb (a b : BudgetLine) : bool :=
  match String.compare (l_category a) (l_category b) with
  | Lt => true
  | Gt => false
  | Eq => String.leb (l_subcategory a) (l_subcategory b)
  end.

Fixpoint insert_by (x : BudgetLine) (rows : list BudgetLine) : list BudgetLine :=
  match rows with
  | [] => [x]
  | y :: rest => if line_leb x y then x :: rows else y :: insert_by x rest
  end.

Definition order_by (rows : list BudgetLine) : list BudgetLine :=
  fold_right insert_by [] rows.

(** The rows of [budget_lines] with [budget_id=?], in storage order. *)
Definition lines_of (conn : Db) (budget_id : string) : list BudgetLine :=
  filter (fun r => String.eqb (l_budget_id r) budget_id) (budget_lines conn).

(** [SELECT * FROM budget_lines WHERE budget_id=? ORDER BY category, subcategory] *)
Definition select_lines (conn : Db) (budget_id : string) : list BudgetLine :=
  order_by (lines_of conn budget_id).

Record LineVariance : Type := mkLineVariance {
  lv_line_id : string;
  lv_category : string;
  lv_subcategory : string;
  lv_allocated : Q;
  lv_spent : Q;
  lv_committed : Q;
  lv_available : Q;
  lv_utilization_pct : Q;
  lv_status : string
}.

Record VarianceReport : Type := mkVarianceReport {
  v_budget_id : string;
  v_title : string;
  v_fiscal_year : Z;
  v_department : string;
  v_status : BudgetStatus;
  v_total_budget : Q;
  v_total_allocated : Q;
  v_total_spent : Q;
  v_total_committed : Q;
  v_total_available : Q;
  v_overall_utilization_pct : Q;
  v_unallocated : Q;
  v_lines : list LineVariance
}.

(** The body of the loop over [lines] in [get_variance]. *)
Definition line_variance (l : BudgetLine) : LineVariance :=
  let avail := l_allocated l - l_spent l - l_committed l in
  let pct := pct_of (l_spent l) (l_allocated l) in
  mkLineVariance (l_line_id l) (l_category l) (l_subcategory l)
                 (l_allocated l) (l_spent l) (l_committed l) avail pct
                 (if Qltb avail 0 then "over_budget"
                  else if Qgtb pct 80 then "warning" else "ok").

Definition get_variance (budget_id : string) : M VarianceReport :=
  conn <- get_connection ;;
  match select_budget conn budget_id with
  | None => raise (ValueError NotFound)
  | Some budget =>
      let lines := select_lines conn budget_id in
      let total_allocated := sum (map l_allocated lines) in
      let total_spent := sum (map l_spent lines) in
      let total_committed := sum (map l_committed lines) in
      let total_available := total_allocated - total_spent - total_committed in
      let line_variances := map line_variance lines in
      ret (mkVarianceReport budget_id (b_title budget) (b_fiscal_year budget)
             (b_department budget) (b_status budget) (b_total_amount budget)
             total_allocated total_spent total_committed total_available
             (pct_of total_spent total_allocated)
             (b_total_amount budget - total_allocated)
             line_variances)
  end.

(** ** Compliance *)

(** "OVER-ALLOCATED: Lines exceed total budget by $..." and
    "OVER-SPENT: category/subcategory by $...". *)
Inductive issue : Type :=
| OVER_ALLOCATED (by_ : Q)
| OVER_SPENT (category subcategory : string) (by_ : Q).

(** "HIGH UTILIZATION (pct%): category/subcategory" and
    "n expenditure(s) missing receipt references". *)
Inductive warning : Type :=
| HIGH_UTILIZATION (pct : Q) (category subcategory : string)
| MISSING_RECEIPTS (n : nat).

Record ComplianceReport : Type := mkComplianceReport {
  c_budget_id : string;
  c_compliant : bool;
  c_issues : list issue;
  c_warnings : list warning;
  c_checked_at : string
}.

(** One turn of the loop over [variance["lines"]]: the [if]/[elif]. *)
Definition check_line (acc : list issue * list warning) (line : LineVariance)
    : list issue * list warning :=
  let (issues, warnings) := acc in
  if Qltb (lv_available line) 0
  then (issues ++ [OVER_SPENT (lv_category line) (lv_subcategory line)
                              (Qabs (lv_available line))], warnings)
  else if Qgtb (lv_utilization_pct line) 90
  then (issues, warnings ++ [HIGH_UTILIZATION (lv_utilization_pct line)
                               (lv_category line) (lv_subcategory line)])
  else (issues, warnings).

Definition is_none {A} (o : option A) : bool :=
  match o with None => true | Some _ => false end.

(** [SELECT COUNT( * ) FROM expenditures e JOIN budget_lines bl
     ON e.budget_line_id = bl.line_id
     WHERE bl.budget_id=? AND e.receipt_ref IS NULL] *)
Definition exps_without_receipt (conn : Db) (budget_id : string) : nat :=
  List.length
    (filter (fun p : Expenditure * BudgetLine =>
               String.eqb (e_budget_line_id (fst p)) (l_line_id (snd p))
               && String.eqb (l_budget_id (snd p)) budget_id
               && is_none (e_receipt_ref (fst p)))
            (list_prod (expenditures conn) (budget_lines conn))).

Definition compliance_check (budget_id : string) : M ComplianceReport :=
  variance <- get_variance budget_id ;;
  let issues0 :=
    if Qltb (v_unallocated variance) 0
    then [OVER_ALLOCATED (Qabs (v_unallocated variance))] else [] in
  let (issues, warnings) := fold_left check_line (v_lines variance) (issues0, []) in
  conn <- get_connection ;;
  let n := exps_without_receipt conn budget_id in
  let warnings := if (0 <? n)%nat then warnings ++ [MISSING_RECEIPTS n] else warnings in
  checked_at <- utcnow ;;
  ret (mkComplianceReport budget_id (Nat.eqb (List.length issues) 0) issues warnings
                          checked_at).

(** ** Sequences of calls *)

Inductive call : Type :=
| CreateBudget (title : string) (fiscal_year : Z) (total_amount : Q)
               (department notes : string)
| AddBudgetLine (budget_id category subcategory : string) (allocated : Q)
| ApproveBudget (budget_id approved_by : string)
| ActivateBudget (budget_id : string)
| CloseBudget (budget_id : string)
| RecordExpenditure (line_id vendor : string) (amount : Q)
                    (description approved_by : string)
                    (date receipt_ref : option string)
| CommitFunds (line_id : string) (amount : Q) (description : string).

(** The world after a call, whether it returned or raised. *)
Definition exec (c : call) (w : World) : World :=
  match c with
  | CreateBudget t fy a d n => snd (create_budget t fy a d n w)
  | AddBudgetLine b c s a => snd (add_budget_line b c s a w)
  | ApproveBudget b by_ => snd (approve_budget b by_ w)
  | ActivateBudget b => snd (activate_budget b w)
  | CloseBudget b => snd (close_budget b w)
  | RecordExpenditure l v a d by_ dt r => snd (record_expenditure l v a d by_ dt r w)
  | CommitFunds l a d => snd (commit_funds l a d w)
  end.

Definition run (cs : list call) (w : World) : World :=
  fold_left (fun w c => exec c w) cs w.

(** A world whose store is new; the environment is arbitrary. *)
Definition new_world (uuids clock : nat -> string) : World :=
  mkWorld empty_db uuids 0 clock 0.

(** ** Vocabulary of the statements *)

(** The next identifier [uuid4()] will return, and the ones after it. *)
Definition next_uuid (w : World) (k : nat) : string := uuid_src w (uuid_pos w + k).

(** The next clock readings. *)
Definition next_clock (w : World) (k : nat) : string := clock_src w (clock_pos w + k).


(** No row of [budget_lines] has this primary key. *)
Definition line_id_free (w : World) (id : string) : Prop :=
  existsb (fun r => String.eqb (l_line_id r) id) (budget_lines (disk w)) = false.

(** No row of the audit log has this identifier. *)
Definition log_id_free (w : World) (id : string) : Prop :=
  existsb (fun r => String.eqb (a_log_id r) id) (audit_log (disk w)) = false.

(** A transition [op] on the budget [b], found under [budget_id] in [w],
    is guarded by the status [req] and leads to [tgt]:
    - from any other status it raises the invalid state error and leaves
      the world as it was;
    - if it returns, the status was [req] and is now [tgt];
    - from [req] it does return [True], the audit row being insertable. *)
Definition transition_guard (op : M bool) (w : World) (budget_id : string)
    (b : Budget) (req tgt : BudgetStatus) : Prop :=
  (b_status b <> req -> op w = (Raise (ValueError InvalidState), w)) /\
  (forall r w', op w = (Ok r, w') ->
     b_status b = req /\
     exists b', select_budget (disk w') budget_id = Some b' /\ b_status b' = tgt) /\
  (b_status b = req -> log_id_free w (next_uuid w 0) ->
     exists w', op w = (Ok true, w') /\
     exists b', select_budget (disk w') budget_id = Some b' /\ b_status b' = tgt).

(** Between the stores [d] and [d'], the budgets named [budget_id] took the
    status [tgt] and possibly a new [updated_at]; every other field of every
    budget, every other budget, every line and every expenditure is the
    same. *)
Definition only_status_changed (budget_id : string) (tgt : BudgetStatus)
    (d d' : Db) : Prop :=
  Forall2 (fun b b' =>
             b_title b' = b_title b /\
             b_fiscal_year b' = b_fiscal_year b /\
             b_total_amount b' = b_total_amount b /\
             b_department b' = b_department b /\
             b_budget_id b' = b_budget_id b /\
             b_created_at b' = b_created_at b /\
             b_approved_by b' = b_approved_by b /\
             b_approved_at b' = b_approved_at b /\
             b_notes b' = b_notes b /\
             (b_budget_id b = budget_id -> b_status b' = tgt) /\
             (b_budget_id b <> budget_id -> b' = b))
          (budgets d) (budgets d') /\
  budget_lines d' = budget_lines d /\
  expenditures d' = expenditures d.

(** ** Invariants of a budget line *)





(** What one call can do to the table of budget lines: nothing, append a
    line under an unused identifier, or add an amount the line can afford
    to [spent] or to [committed]. *)
Inductive lines_step (c : call) (rows : list BudgetLine) : list BudgetLine -> Prop :=
| step_none : lines_step c rows rows
| step_add budget_id category subcategory allocated line_id created_at :
    c = AddBudgetLine budget_id category subcategory allocated ->
    existsb (fun r => String.eqb (l_line_id r) line_id) rows = false ->
    lines_step c rows
      (rows ++ [mkBudgetLine budget_id category subcategory allocated 0 0
                             line_id created_at])
| step_spend line_id vendor amount description approved_by date receipt_ref line :
    c = RecordExpenditure line_id vendor amount description approved_by date receipt_ref ->
    find (fun r => String.eqb (l_line_id r) line_id) rows = Some line ->
    amount <= available line ->
    lines_step c rows
      (map (fun r => if String.eqb (l_line_id r) line_id
                     then add_spent amount r else r) rows)
| step_commit line_id amount description line :
    c = CommitFunds line_id amount description ->
    find (fun r => String.eqb (l_line_id r) line_id) rows = Some line ->
    amount <= available line ->
    lines_step c rows
      (map (fun r => if String.eqb (l_line_id r) line_id
                     then add_committed amount r else r) rows).

(** ** Vocabulary of the variance report *)

(** The sum of a field over rows. *)
Definition total (f : BudgetLine -> Q) (rows : list BudgetLine) : Q :=
  fold_right (fun l acc => f l + acc) 0 rows.


(** ** Vocabulary of the compliance report *)

(** What the loop of [compliance_check] adds for one line. *)
Definition line_issue (lv : LineVariance) : list issue :=
  if Qltb (lv_available lv) 0
  then [OVER_SPENT (lv_category lv) (lv_subcategory lv) (Qabs (lv_available lv))]
  else [].

Definition line_warning (lv : LineVariance) : list warning :=
  if Qltb (lv_available lv) 0 then []
  else if Qgtb (lv_utilization_pct lv) 90
       then [HIGH_UTILIZATION (lv_utilization_pct lv) (lv_category lv)
                              (lv_subcategory lv)]
       else [].

Definition is_over_allocated (i : issue) : bool :=
  match i with OVER_ALLOCATED _ => true | OVER_SPENT _ _ _ => false end.

Definition is_missing_receipts (x : warning) : bool :=
  match x with MISSING_RECEIPTS _ => true | HIGH_UTILIZATION _ _ _ => false end.

(** The expenditures recorded against the lines of a budget. *)
Definition expenditures_of (d : Db) (budget_id : string) : list Expenditure :=
  filter (fun e =>
            existsb (fun l => String.eqb (e_budget_line_id e) (l_line_id l)
                              && String.eqb (l_budget_id l) budget_id)
                    (budget_lines d))
         (expenditures d).

(** What a compliance report [rep] says, given the variance report [v] of
    the same budget and the number [n] of its expenditures without a
    receipt reference. *)
Definition report_findings (v : VarianceReport) (n : nat) (rep : ComplianceReport)
    : Prop :=
  (c_compliant rep = true <-> c_issues rep = []) /\
  (v_unallocated v < 0 ->
     filter is_over_allocated (c_issues rep)
       = [OVER_ALLOCATED (Qabs (v_unallocated v))]) /\
  (0 <= v_unallocated v -> filter is_over_allocated (c_issues rep) = []) /\
  (forall lv, In lv (v_lines v) -> lv_available lv < 0 ->
     In (OVER_SPENT (lv_category lv) (lv_subcategory lv) (Qabs (lv_available lv)))
        (c_issues rep)) /\
  (forall lv, In lv (v_lines v) -> 0 <= lv_available lv ->
     90 < lv_utilization_pct lv ->
     In (HIGH_UTILIZATION (lv_utilization_pct lv) (lv_category lv) (lv_subcategory lv))
        (c_warnings rep)) /\
  (forall c s x, In (OVER_SPENT c s x) (c_issues rep) ->
     exists lv, In lv (v_lines v) /\ lv_available lv < 0 /\
                c = lv_category lv /\ s = lv_subcategory lv /\
                x = Qabs (lv_available lv)) /\
  (forall p c s, In (HIGH_UTILIZATION p c s) (c_warnings rep) ->
     exists lv, In lv (v_lines v) /\ 0 <= lv_available lv /\
                90 < lv_utilization_pct lv /\
                p = lv_utilization_pct lv /\ c = lv_category lv /\
                s = lv_subcategory lv) /\
  ((0 < n)%nat ->
     filter is_missing_receipts (c_warnings rep) = [MISSING_RECEIPTS n]) /\
  (n = 0%nat -> filter is_missing_receipts (c_warnings rep) = []).

(** ** Binary floating point *)

(** The amounts of the program are binary64 numbers; the model above takes
    them as exact rationals and so leaves their rounding out.  The
    definitions below replay the arithmetic of [record_expenditure] (the
    availability test and [spent=spent+?]) on binary64 numbers, with the
    operations of the IEEE 754 specification, to show what rounding adds. *)

Definition b64_of_Z (z : Z) : spec_float := binary_normalize 53 1024 z 0 false.

(** The binary64 number nearest to [n / d]: what a literal such as [58.79]
    denotes ([b64_decimal 5879 100]). *)
Definition b64_decimal (n d : Z) : spec_float :=
  SFdiv 53 1024 (b64_of_Z n) (b64_of_Z d).

(** [line["allocated"] - line["spent"] - line["committed"]] *)
Definition available64 (allocated spent committed : spec_float) : spec_float :=
  SFsub 53 1024 (SFsub 53 1024 allocated spent) committed.

(** [amount > available] *)
Definition exceeds64 (amount avail : spec_float) : bool := SFltb avail amount.

(** [spent=spent+?] *)
Definition spend64 (spent amount : spec_float) : spec_float :=
  SFadd 53 1024 spent amount.

(** ** Sample environment *)

(** A concrete environment, used by the examples: identifiers "A", "B",
    "C", ... and one clock reading per second. *)
Definition sample_uuids (n : nat) : string := String (ascii_of_nat (65 + n)) EmptyString.

Definition sample_clock (n : nat) : string :=
  "2025-01-01T00:00:0" ++ String (ascii_of_nat (48 + n)) EmptyString.

Definition sample_world : World := new_world sample_uuids sample_clock.

(** ** Scenarios *)

(** The store after [create_budget] of the sample budget. *)
Definition draft_world : World :=
  run [CreateBudget "FY2025 Budget" 2025 1000000 "Finance" EmptyString] sample_world.

(** The row of the sample budget while it is a draft. *)
Definition draft_budget : Budget :=
  mkBudget "FY2025 Budget" 2025 1000000 "Finance" DRAFT "A"
           "2025-01-01T00:00:00" "2025-01-01T00:00:01" None None EmptyString.

(** The stores further along the life of the sample budget. *)
Definition approved_world : World :=
  run [ApproveBudget "A" "Director"] draft_world.

Definition active_world : World :=
  run [ActivateBudget "A"] approved_world.

Definition closed_world : World :=
  run [CloseBudget "A"] active_world.

(** The row of the sample budget once approved, and once active. *)
Definition approved_budget : Budget :=
  set_approved "Director" "2025-01-01T00:00:03" draft_budget.

Definition active_budget : Budget :=
  set_status ACTIVE "2025-01-01T00:00:05" approved_budget.

(** The store of the scenario "line allocated = 10,000". *)
Definition legal_world : World :=
  run [CreateBudget "FY2025 Budget" 2025 1000000 "Finance" EmptyString;
       AddBudgetLine "A" "Legal" "Contracts" 10000] sample_world.


(** A run with a rejected expenditure, an accepted one and a commitment. *)
Definition busy_calls : list call :=
  [CreateBudget "FY2025 Budget" 2025 1000000 "Finance" EmptyString;
   AddBudgetLine "A" "Legal" "Contracts" 10000;
   RecordExpenditure "C" "Law Firm" 15000 "Legal fees" "CFO" None None;
   RecordExpenditure "C" "Law Firm" 4000 "Legal fees" "CFO" None (Some "R-1");
   CommitFunds "C" 6000 "Retainer"].



(** The scenario "line allocated = 300,000, expenditure of 50,000". *)
Definition cloud_world : World :=
  run [CreateBudget "FY2025 Budget" 2025 1000000 "Finance" EmptyString;
       AddBudgetLine "A" "Tech" "Cloud" 300000;
       RecordExpenditure "C" "AWS" 50000 "Cloud hosting" "CTO" None None]
      sample_world.

(** The budget row of the "300,000 / 50,000" scenario. *)
Definition cloud_budget : Budget :=
  set_updated_at "2025-01-01T00:00:04" draft_budget.


(** The variance report of that scenario. *)
Definition cloud_report : VarianceReport :=
  mkVarianceReport "A" "FY2025 Budget" 2025 "Finance" DRAFT 1000000
    300000 50000 0 250000 (1667 # 100) 700000
    [mkLineVariance "C" "Tech" "Cloud" 300000 50000 0 250000 (1667 # 100) "ok"].



(** The scenario of the test [test_record_expenditure]. *)
Definition travel_world : World :=
  run [CreateBudget "FY2025 Budget" 2025 1000000 "Finance" EmptyString;
       AddBudgetLine "A" "Operations" "Travel" 50000;
       RecordExpenditure "C" "Delta Airlines" 1200 "Conference travel"
                         "Manager Jones" None None]
      sample_world.

(** A store written by other means: one line spent beyond its allocation. *)
Definition overspent_line : BudgetLine :=
  mkBudgetLine "A" "Legal" "Contracts" 100 200 0 "C" "2025-01-01T00:00:03".

(** The store holding that line under the sample budget. *)
Definition overspent_world : World :=
  mkWorld (mkDb [draft_budget] [overspent_line] [] []) sample_uuids 0 sample_clock 0.

(** * The rest of the module *)

(** ** The dataclass properties *)


(** ** Sorting rows *)

(** An ORDER BY clause over one comparison; rows that compare equal keep
    their order. *)
Fixpoint insert_sorted {A : Type} (leb : A -> A -> bool) (x : A) (rows : list A)
    : list A :=
  match rows with
  | [] => [x]
  | y :: rest => if leb x y then x :: rows else y :: insert_sorted leb x rest
  end.

Definition sort_by {A : Type} (leb : A -> A -> bool) (rows : list A) : list A :=
  fold_right (insert_sorted leb) [] rows.

(** ** Expenditures of a budget *)





(** ** Listing budgets *)

(** [ORDER BY created_at DESC] *)
Definition created_desc (a b : Budget) : bool :=
  String.leb (b_created_at b) (b_created_at a).

(** [if department: query += " AND department=?"]: [None] and the empty
    string add no condition. *)
Definition department_condition (department : option string) (r : Budget) : bool :=
  match department with
  | Some (String c s) => String.eqb (b_department r) (String c s)
  | _ => true
  end.

(** [if fiscal_year: query += " AND fiscal_year=?"]: [None] and [0] add no
    condition. *)
Definition fiscal_year_condition (fiscal_year : option Z) (r : Budget) : bool :=
  match fiscal_year with
  | Some y => if Z.eqb y 0 then true else Z.eqb (b_fiscal_year r) y
  | None => true
  end.

Definition list_budgets (department : option string) (fiscal_year : option Z)
    : M (list Budget) :=
  conn <- get_connection ;;
  ret (sort_by created_desc
         (filter (fun r => department_condition department r
                           && fiscal_year_condition fiscal_year r)
                 (budgets conn))).

(** ** Statistics *)

Record Stats : Type := mkStats {
  s_total_budgets : nat;
  s_total_budget_amount : Q;
  s_total_spent : Q;
  s_overall_utilization_pct : Q;
  s_by_status : list (BudgetStatus * nat)
}.

(** [SELECT COUNT( * ) FROM budgets WHERE status=?] *)
Definition count_status (conn : Db) (s : BudgetStatus) : nat :=
  List.length (filter (fun r => BudgetStatus_eqb (b_status r) s) (budgets conn)).

Definition budget_stats : M Stats :=
  conn <- get_connection ;;
  let total := List.length (budgets conn) in
  let total_allocated := sum (map b_total_amount (budgets conn)) in
  let total_spent := sum (map l_spent (budget_lines conn)) in
  let by_status := map (fun s => (s, count_status conn s))
                       [DRAFT; APPROVED; ACTIVE; CLOSED] in
  ret (mkStats total total_allocated total_spent
               (pct_of total_spent total_allocated) by_status).

(** ** The executive summary *)

(** The [value] of a member of [BudgetStatus]. *)
Definition status_value (s : BudgetStatus) : string :=
  match s with
  | DRAFT => "draft"
  | APPROVED => "approved"
  | ACTIVE => "active"
  | CLOSED => "closed"
  end.

(** [str.upper()] on ASCII text. *)
Definition upper_ascii (c : ascii) : ascii :=
  let n := nat_of_ascii c in
  if ((97 <=? n) && (n <=? 122))%nat then ascii_of_nat (n - 32) else c.

Fixpoint upper (s : string) : string :=
  match s with
  | EmptyString => EmptyString
  | String c rest => String (upper_ascii c) (upper rest)
  end.

(** [s * n] *)
Fixpoint replicate (n : nat) (s : string) : string :=
  match n with
  | O => EmptyString
  | S k => s ++ replicate k s
  end.

(** A piece of a line of text: literal text, or a hole with what fills it.
    [Fmt spec q] is [format(q, spec)], the empty [spec] being [str(q)]. *)
Inductive piece : Type :=
| Lit (s : string)
| Fmt (spec : string) (q : Q)
| IntHole (z : Z)
| IssueText (i : issue)
| WarningText (x : warning).

(** A line of text, and a text: its lines, to be joined by newlines. *)
Definition text_line : Type := list piece.
Definition text : Type := list text_line.

(** ["⚠" if l["status"] == "warning" else ("🔴" if l["status"] ==
    "over_budget" else "✓")] *)
Definition flag_of (status : string) : string :=
  if String.eqb status "warning" then "⚠"
  else if String.eqb status "over_budget" then "🔴" else "✓".

(** The two lines the summary has for a line item. *)
Definition summary_item (l : LineVariance) : text :=
  [ [Lit "  "; Lit (flag_of (lv_status l)); Lit " ";
     Lit (lv_category l); Lit "/"; Lit (lv_subcategory l)];
    [Lit "      Allocated: $"; Fmt ",.2f" (lv_allocated l);
     Lit " | Spent: $"; Fmt ",.2f" (lv_spent l);
     Lit " | "; Fmt EmptyString (lv_utilization_pct l); Lit "%"] ].

Definition summary_head (variance : VarianceReport) : text :=
  [ [Lit (replicate 65 "=")];
    [Lit "BUDGET EXECUTIVE SUMMARY"];
    [Lit (replicate 65 "=")];
    [Lit "Budget Title    : "; Lit (v_title variance)];
    [Lit "Department      : "; Lit (v_department variance)];
    [Lit "Fiscal Year     : "; IntHole (v_fiscal_year variance)];
    [Lit "Status          : "; Lit (upper (status_value (v_status variance)))];
    [Lit EmptyString];
    [Lit "FINANCIAL OVERVIEW"];
    [Lit (replicate 40 "-")];
    [Lit "  Total Budget   : $"; Fmt ">15,.2f" (v_total_budget variance)];
    [Lit "  Total Allocated: $"; Fmt ">15,.2f" (v_total_allocated variance)];
    [Lit "  Total Spent    : $"; Fmt ">15,.2f" (v_total_spent variance)];
    [Lit "  Total Committed: $"; Fmt ">15,.2f" (v_total_committed variance)];
    [Lit "  Available      : $"; Fmt ">15,.2f" (v_total_available variance)];
    [Lit "  Utilization    : "; Fmt ">14.1f" (v_overall_utilization_pct variance);
     Lit "%"];
    [Lit EmptyString];
    [Lit "LINE ITEMS"];
    [Lit (replicate 40 "-")] ].

Definition executive_summary (budget_id : string) : M text :=
  variance <- get_variance budget_id ;;
  compliance <- compliance_check budget_id ;;
  let lines := summary_head variance in
  let lines := fold_left (fun lines l => lines ++ summary_item l)
                         (v_lines variance) lines in
  let lines := lines ++
    [ [Lit EmptyString];
      [Lit "COMPLIANCE STATUS"];
      [Lit (replicate 40 "-")];
      [Lit "  Status  : ";
       Lit (if c_compliant compliance then "COMPLIANT ✓" else "NON-COMPLIANT ✗")] ] in
  let lines :=
    match c_issues compliance with
    | [] => lines
    | _ :: _ =>
        fold_left (fun lines issue => lines ++ [[Lit "    🔴 "; IssueText issue]])
                  (c_issues compliance) (lines ++ [[Lit "  Issues:"]])
    end in
  let lines :=
    match c_warnings compliance with
    | [] => lines
    | _ :: _ =>
        fold_left (fun lines warning => lines ++ [[Lit "    ⚠ "; WarningText warning]])
                  (c_warnings compliance) (lines ++ [[Lit "  Warnings:"]])
    end in
  ret (lines ++ [[Lit (replicate 65 "=")]]).

(** ** The command line *)

(** What one [print] call writes. *)
Inductive printed : Type :=
| Line (l : text_line)
| Lines (t : text)
| JsonStats (s : Stats)
| JsonVariance (r : VarianceReport)
| JsonCompliance (r : ComplianceReport).

(** [cli()], [argv] being [sys.argv]; the result is what was printed, in
    order. *)
Definition cli (argv : list string) : M (list printed) :=
  if (List.length argv <? 2)%nat
  then ret [Line [Lit "Usage: python budget_tracker.py <command>"];
            Line [Lit "Commands: create, add-line, approve, activate, spend, variance, compliance, summary, stats, list"]]
  else
    init_db ;;;
    let cmd := nth 1 argv EmptyString in
    if String.eqb cmd "stats"
    then stats <- budget_stats ;; ret [JsonStats stats]
    else if String.eqb cmd "list"
    then
      budgets <- list_budgets None None ;;
      ret (map (fun b => Line [Lit "["; Lit (upper (status_value (b_status b)));
                               Lit "] "; Lit (b_title b); Lit " — ";
                               Lit (b_department b); Lit " FY";
                               IntHole (b_fiscal_year b); Lit " $";
                               Fmt ",.2f" (b_total_amount b)])
               budgets)
    else if String.eqb cmd "summary" && (3 <=? List.length argv)%nat
    then t <- executive_summary (nth 2 argv EmptyString) ;; ret [Lines t]
    else if String.eqb cmd "variance" && (3 <=? List.length argv)%nat
    then r <- get_variance (nth 2 argv EmptyString) ;; ret [JsonVariance r]
    else if String.eqb cmd "compliance" && (3 <=? List.length argv)%nat
    then r <- compliance_check (nth 2 argv EmptyString) ;; ret [JsonCompliance r]
    else ret [Line [Lit "Unknown command: "; Lit cmd]].

(** ** What a call does to the store *)

(** The statements a call commits: its INSERT and UPDATE, under the
    conditions the call tests first.  The audit table is left to
    [logged]. *)
Inductive committed (d : Db) : call -> Db -> Prop :=
| mut_create title fiscal_year total_amount department notes id created updated :
    existsb (fun r => String.eqb (b_budget_id r) id) (budgets d) = false ->
    committed d (CreateBudget title fiscal_year total_amount department notes)
      (mkDb (budgets d ++ [mkBudget title fiscal_year total_amount department DRAFT
                                    id created updated None None notes])
            (budget_lines d) (expenditures d) (audit_log d))
| mut_add budget_id category subcategory allocated b id created now :
    select_budget d budget_id = Some b ->
    b_status b = DRAFT \/ b_status b = APPROVED ->
    existsb (fun r => String.eqb (l_line_id r) id) (budget_lines d) = false ->
    committed d (AddBudgetLine budget_id category subcategory allocated)
      (update_budget
         (mkDb (budgets d)
               (budget_lines d ++ [mkBudgetLine budget_id category subcategory
                                                allocated 0 0 id created])
               (expenditures d) (audit_log d))
         budget_id (set_updated_at now))
| mut_approve budget_id approved_by b now :
    select_budget d budget_id = Some b ->
    b_status b = DRAFT ->
    committed d (ApproveBudget budget_id approved_by)
      (update_budget d budget_id (set_approved approved_by now))
| mut_activate budget_id b now :
    select_budget d budget_id = Some b ->
    b_status b = APPROVED ->
    committed d (ActivateBudget budget_id)
      (update_budget d budget_id (set_status ACTIVE now))
| mut_close budget_id b now :
    select_budget d budget_id = Some b ->
    b_status b = ACTIVE ->
    committed d (CloseBudget budget_id)
      (update_budget d budget_id (set_status CLOSED now))
| mut_spend line_id vendor amount description approved_by date receipt_ref
            line exp_date id created :
    select_line d line_id = Some line ->
    amount <= available line ->
    existsb (fun r => String.eqb (e_expenditure_id r) id) (expenditures d) = false ->
    committed d (RecordExpenditure line_id vendor amount description approved_by
                                  date receipt_ref)
      (update_line
         (mkDb (budgets d) (budget_lines d)
               (expenditures d ++ [mkExpenditure line_id vendor amount description
                                                 approved_by exp_date id created
                                                 receipt_ref (l_category line)])
               (audit_log d))
         line_id (add_spent amount))
| mut_commit line_id amount description line :
    select_line d line_id = Some line ->
    amount <= available line ->
    committed d (CommitFunds line_id amount description)
      (update_line d line_id (add_committed amount)).

(** A call commits its statements, or none (it raised before [commit]). *)
Definition mutation (d : Db) (c : call) (d1 : Db) : Prop :=
  d1 = d \/ committed d c d1.

(** What [_log] may add to a store: nothing, or one row under an unused
    identifier. *)
Definition logged (d d' : Db) : Prop :=
  budgets d' = budgets d /\
  budget_lines d' = budget_lines d /\
  expenditures d' = expenditures d /\
  (audit_log d' = audit_log d \/
   exists row,
     existsb (fun r => String.eqb (a_log_id r) (a_log_id row)) (audit_log d) = false /\
     audit_log d' = audit_log d ++ [row]).

(** ** Invariants of the store *)

(** The primary keys of the four tables. *)
Definition keys_unique (d : Db) : Prop :=
  NoDup (map b_budget_id (budgets d)) /\
  NoDup (map l_line_id (budget_lines d)) /\
  NoDup (map e_expenditure_id (expenditures d)) /\
  NoDup (map a_log_id (audit_log d)).

(** The foreign keys: every line belongs to a stored budget, every
    expenditure to a stored line. *)
Definition references_hold (d : Db) : Prop :=
  (forall l, In l (budget_lines d) ->
     In (l_budget_id l) (map b_budget_id (budgets d))) /\
  (forall e, In e (expenditures d) ->
     In (e_budget_line_id e) (map l_line_id (budget_lines d))).

(** The amounts of the expenditures recorded against a line. *)
Definition spent_on (d : Db) (line_id : string) : Q :=
  fold_right (fun e acc => e_amount e + acc) 0
             (filter (fun e => String.eqb (e_budget_line_id e) line_id)
                     (expenditures d)).

(** [spent] is the sum of the recorded expenditures, on every line. *)
Definition spent_is_recorded (d : Db) : Prop :=
  forall l, In l (budget_lines d) -> l_spent l == spent_on d (l_line_id l).

(** Every expenditure carries the category of its line. *)
Definition categories_copied (d : Db) : Prop :=
  forall e l, In e (expenditures d) -> In l (budget_lines d) ->
    e_budget_line_id e = l_line_id l -> e_category e = l_category l.

(** A budget has an approver and an approval time exactly when it has left
    the draft status. *)
Definition approval_recorded (b : Budget) : Prop :=
  (b_status b = DRAFT -> b_approved_by b = None /\ b_approved_at b = None) /\
  (b_status b <> DRAFT -> b_approved_by b <> None /\ b_approved_at b <> None).

(** ** How rows change over time *)

(** The place of a status in the life cycle. *)
Definition status_rank (s : BudgetStatus) : nat :=
  match s with DRAFT => 0 | APPROVED => 1 | ACTIVE => 2 | CLOSED => 3 end.

(** [b'] is a later state of the budget [b]: the fields given at creation
    are the same, the status has not gone back, and an approval that was
    recorded is still the same. *)
Definition budget_evolves (b b' : Budget) : Prop :=
  b_budget_id b' = b_budget_id b /\
  b_title b' = b_title b /\
  b_fiscal_year b' = b_fiscal_year b /\
  b_total_amount b' = b_total_amount b /\
  b_department b' = b_department b /\
  b_created_at b' = b_created_at b /\
  b_notes b' = b_notes b /\
  (status_rank (b_status b) <= status_rank (b_status b'))%nat /\
  (b_status b <> DRAFT ->
     b_approved_by b' = b_approved_by b /\ b_approved_at b' = b_approved_at b).

(** [l'] is a later state of the line [l]: only [spent] and [committed] may
    differ. *)
Definition line_evolves (l l' : BudgetLine) : Prop :=
  l_line_id l' = l_line_id l /\
  l_budget_id l' = l_budget_id l /\
  l_category l' = l_category l /\
  l_subcategory l' = l_subcategory l /\
  l_allocated l' = l_allocated l /\
  l_created_at l' = l_created_at l.

(** The table [rows'] is a later state of [rows]: the old rows, each in a
    later state, in the same order, then new rows. *)
Definition table_evolves {A : Type} (R : A -> A -> Prop) (rows rows' : list A) : Prop :=
  exists old new, rows' = old ++ new /\ Forall2 R rows old.

(** ** Outcome of a call *)

Definition raised {A : Type} (r : result A) : option exn :=
  match r with Ok _ => None | Raise e => Some e end.

(** The exception a call raises, if any. *)
Definition outcome (c : call) (w : World) : option exn :=
  match c with
  | CreateBudget t fy a d n => raised (fst (create_budget t fy a d n w))
  | AddBudgetLine b c s a => raised (fst (add_budget_line b c s a w))
  | ApproveBudget b by_ => raised (fst (approve_budget b by_ w))
  | ActivateBudget b => raised (fst (activate_budget b w))
  | CloseBudget b => raised (fst (close_budget b w))
  | RecordExpenditure l v a d by_ dt r =>
      raised (fst (record_expenditure l v a d by_ dt r w))
  | CommitFunds l a d => raised (fst (commit_funds l a d w))
  end.

(** The action tag a call logs. *)
Definition action_of (c : call) : string :=
  match c with
  | CreateBudget _ _ _ _ _ => "CREATE_BUDGET"
  | AddBudgetLine _ _ _ _ => "ADD_LINE"
  | ApproveBudget _ _ => "APPROVE_BUDGET"
  | ActivateBudget _ => "ACTIVATE_BUDGET"
  | CloseBudget _ => "CLOSE_BUDGET"
  | RecordExpenditure _ _ _ _ _ _ _ => "RECORD_EXPENDITURE"
  | CommitFunds _ _ _ => "COMMIT_FUNDS"
  end.

(** The budget a call logs its action under. *)
Definition subject_of (c : call) (w : World) : string :=
  match c with
  | CreateBudget _ _ _ _ _ => uuid_src w (uuid_pos w)
  | AddBudgetLine b _ _ _ => b
  | ApproveBudget b _ => b
  | ActivateBudget b => b
  | CloseBudget b => b
  | RecordExpenditure l _ _ _ _ _ _ =>
      match select_line (disk w) l with
      | Some line => l_budget_id line
      | None => EmptyString
      end
  | CommitFunds l _ _ =>
      match select_line (disk w) l with
      | Some line => l_budget_id line
      | None => EmptyString
      end
  end.

(** The invariants of the store, together. *)
Definition store_ok (d : Db) : Prop :=
  keys_unique d /\
  references_hold d /\
  spent_is_recorded d /\
  categories_copied d /\
  Forall approval_recorded (budgets d).

(** The sample budget brought to its end. *)
Definition life_calls : list call :=
  [ApproveBudget "A" "Director"; ActivateBudget "A"; CloseBudget "A"].

(** ** Vocabulary of the further statements *)


(** The world [w] with another table of budgets. *)
Definition with_budgets (bs : list Budget) (w : World) : World :=
  mkWorld (mkDb bs (budget_lines (disk w)) (expenditures (disk w))
                (audit_log (disk w)))
          (uuid_src w) (uuid_pos w) (clock_src w) (clock_pos w).

(** Between the stores [d] and [d'], the budgets named [budget_id] were
    approved by [approved_by] at some time [now], which is also their new
    [updated_at]; everything else is the same. *)
Definition only_approval_changed (budget_id approved_by : string) (d d' : Db) : Prop :=
  exists now,
    Forall2 (fun b b' =>
               (b_budget_id b = budget_id ->
                b' = mkBudget (b_title b) (b_fiscal_year b) (b_total_amount b)
                              (b_department b) APPROVED (b_budget_id b)
                              (b_created_at b) now (Some approved_by) (Some now)
                              (b_notes b)) /\
               (b_budget_id b <> budget_id -> b' = b))
            (budgets d) (budgets d') /\
    budget_lines d' = budget_lines d /\
    expenditures d' = expenditures d.

(** Between the stores [d] and [d'], the budgets named [budget_id] took a
    new [updated_at] and nothing else changed in the table of budgets. *)
Definition only_updated_at_changed (budget_id : string) (d d' : Db) : Prop :=
  exists now,
    Forall2 (fun b b' =>
               (b_budget_id b = budget_id ->
                b' = mkBudget (b_title b) (b_fiscal_year b) (b_total_amount b)
                              (b_department b) (b_status b) (b_budget_id b)
                              (b_created_at b) now (b_approved_by b)
                              (b_approved_at b) (b_notes b)) /\
               (b_budget_id b <> budget_id -> b' = b))
            (budgets d) (budgets d').



(** The order of the lines in a variance report: by category, then by
    subcategory. *)
Definition in_report_order (a b : LineVariance) : Prop :=
  String.ltb (lv_category a) (lv_category b) = true \/
  (lv_category a = lv_category b /\
   String.leb (lv_subcategory a) (lv_subcategory b) = true).





(** Three budgets of two departments and two years. *)
Definition three_budgets_world : World :=
  run [CreateBudget "B1" 2024 100 "Finance" EmptyString;
       CreateBudget "B2" 2025 200 "Finance" EmptyString;
       CreateBudget "B3" 2025 300 "Health" EmptyString;
       ApproveBudget "C" "Director"]
      sample_world.

(** ** Vocabulary of the summary *)

(** The line of the summary that gives the compliance status. *)
Definition status_line (compliant : bool) : text_line :=
  [Lit "  Status  : ";
   Lit (if compliant then "COMPLIANT ✓" else "NON-COMPLIANT ✗")].

(** The line of the summary for an issue, and for a warning. *)
Definition issue_line (i : issue) : text_line := [Lit "    🔴 "; IssueText i].

Definition warning_line (x : warning) : text_line := [Lit "    ⚠ "; WarningText x].

(** A block of the summary: nothing for an empty list, else a title and a
    line for each element. *)
Definition block {A : Type} (title : string) (line : A -> text_line) (xs : list A)
    : text :=
  match xs with
  | [] => []
  | _ :: _ => [Lit title] :: map line xs
  end.

(** The summary, block after block. *)
Definition summary_text (variance : VarianceReport) (compliance : ComplianceReport)
    : text :=
  summary_head variance
  ++ flat_map summary_item (v_lines variance)
  ++ [[Lit EmptyString]; [Lit "COMPLIANCE STATUS"]; [Lit (replicate 40 "-")];
      status_line (c_compliant compliance)]
  ++ block "  Issues:" issue_line (c_issues compliance)
  ++ block "  Warnings:" warning_line (c_warnings compliance)
  ++ [[Lit (replicate 65 "=")]].

(** The store of the round trip of the summary: one line, one expenditure
    without a receipt, and a second line allocated beyond the budget. *)
Definition summary_world : World :=
  run [AddBudgetLine "A" "Admin" "Reserve" 2000000] cloud_world.

(** ** The vocabulary of the command line *)

(** The two lines printed when no command is given. *)
Definition usage : list printed :=
  [Line [Lit "Usage: python budget_tracker.py <command>"];
   Line [Lit "Commands: create, add-line, approve, activate, spend, variance, compliance, summary, stats, list"]].

(** The line printed by the last branch. *)
Definition unknown_command (cmd : string) : list printed :=
  [Line [Lit "Unknown command: "; Lit cmd]].

(** The commands that have a branch, and those of them that take a budget
    identifier. *)
Definition implemented : list string :=
  ["stats"; "list"; "summary"; "variance"; "compliance"].

Definition needs_id : list string := ["summary"; "variance"; "compliance"].

(** * Properties *)

(** ** Amount comparisons *)

Lemma Qgtb_true (x y : Q) : Qgtb x y = true <-> y < x.
Proof.
  unfold Qgtb. rewrite negb_true_iff. split; intro H.
  - apply Qnot_le_lt. intro Hle. apply Qle_bool_iff in Hle. congruence.
  - destruct (Qle_bool x y) eqn:E; trivial.
    apply Qle_bool_iff in E. lra.
Qed.

Lemma Qgtb_false (x y : Q) : Qgtb x y = false <-> x <= y.
Proof.
  unfold Qgtb. rewrite negb_false_iff. apply Qle_bool_iff.
Qed.

Lemma Qltb_true (x y : Q) : Qltb x y = true <-> x < y.
Proof. exact (Qgtb_true y x). Qed.

Lemma Qltb_false (x y : Q) : Qltb x y = false <-> y <= x.
Proof. exact (Qgtb_false y x). Qed.

(** ** Running the monad *)

Ltac unfold_m :=
  unfold bind, ret, raise, get_connection, commit, execute, uuid4, utcnow,
         init_db, set_disk in *; simpl in *.

(** What [_log] does to the world: it draws one identifier and one clock
    reading, and appends one row unless the identifier is taken. *)
Lemma log_cases (budget_id action : string) (details : list frag) (w : World) :
  let row := mkAuditRow (uuid_src w (uuid_pos w)) budget_id action details
                        (clock_src w (clock_pos w)) "system" in
  let d := disk w in
  (existsb (fun r => String.eqb (a_log_id r) (a_log_id row)) (audit_log d) = false /\
   _log budget_id action details w =
     (Ok tt, mkWorld (mkDb (budgets d) (budget_lines d) (expenditures d)
                           (audit_log d ++ [row]))
                     (uuid_src w) (S (uuid_pos w)) (clock_src w) (S (clock_pos w))))
  \/
  (existsb (fun r => String.eqb (a_log_id r) (a_log_id row)) (audit_log d) = true /\
   _log budget_id action details w =
     (Raise IntegrityError,
      mkWorld d (uuid_src w) (S (uuid_pos w)) (clock_src w) (S (clock_pos w)))).
Proof.
  simpl. unfold _log, insert_audit. unfold_m.
  destruct (existsb _ (audit_log (disk w))); [right | left]; split; reflexivity.
Qed.

(** [_log] touches the audit table only. *)
Lemma log_frame (budget_id action : string) (details : list frag) (w : World) :
  let w' := snd (_log budget_id action details w) in
  budgets (disk w') = budgets (disk w) /\
  budget_lines (disk w') = budget_lines (disk w) /\
  expenditures (disk w') = expenditures (disk w).
Proof.
  destruct (log_cases budget_id action details w) as [[_ E] | [_ E]];
    simpl; rewrite E; simpl; auto.
Qed.

(** ** Lookups after an update *)

Lemma select_budget_update (conn : Db) (budget_id : string) (set : Budget -> Budget) :
  (forall b, b_budget_id (set b) = b_budget_id b) ->
  select_budget (update_budget conn budget_id set) budget_id =
  option_map set (select_budget conn budget_id).
Proof.
  intros Hid. unfold select_budget, update_budget. simpl.
  induction (budgets conn) as [| r rows IH]; simpl; trivial.
  destruct (String.eqb (b_budget_id r) budget_id) eqn:E; simpl.
  - rewrite Hid, E. reflexivity.
  - rewrite E. exact IH.
Qed.

Lemma select_line_update (conn : Db) (line_id : string) (set : BudgetLine -> BudgetLine) :
  (forall l, l_line_id (set l) = l_line_id l) ->
  select_line (update_line conn line_id set) line_id =
  option_map set (select_line conn line_id).
Proof.
  intros Hid. unfold select_line, update_line. simpl.
  induction (budget_lines conn) as [| r rows IH]; simpl; trivial.
  destruct (String.eqb (l_line_id r) line_id) eqn:E; simpl.
  - rewrite Hid, E. reflexivity.
  - rewrite E. exact IH.
Qed.

(** ** Rejection of spending beyond the available amount *)



(** ** The budget life cycle *)

Arguments _log : simpl never.

(** The three transitions have the same shape: test the status, write the
    new one, log. *)
Lemma approve_budget_cases (w : World) (budget_id approved_by : string) (b : Budget) :
  select_budget (disk w) budget_id = Some b ->
  approve_budget budget_id approved_by w =
  if BudgetStatus_eqb (b_status b) DRAFT
  then
    let now := clock_src w (clock_pos w) in
    let w1 := mkWorld (update_budget (disk w) budget_id (set_approved approved_by now))
                      (uuid_src w) (uuid_pos w) (clock_src w) (S (clock_pos w)) in
    match _log budget_id "APPROVE_BUDGET" [Txt "Approved by "; Txt approved_by] w1 with
    | (Ok _, w2) => (Ok true, w2)
    | (Raise e, w2) => (Raise e, w2)
    end
  else (Raise (ValueError InvalidState), w).
Proof.
  intros Hsel. unfold approve_budget. unfold_m. rewrite Hsel.
  destruct (BudgetStatus_eqb (b_status b) DRAFT); simpl; trivial.
Qed.

Lemma activate_budget_cases (w : World) (budget_id : string) (b : Budget) :
  select_budget (disk w) budget_id = Some b ->
  activate_budget budget_id w =
  if BudgetStatus_eqb (b_status b) APPROVED
  then
    let now := clock_src w (clock_pos w) in
    let w1 := mkWorld (update_budget (disk w) budget_id (set_status ACTIVE now))
                      (uuid_src w) (uuid_pos w) (clock_src w) (S (clock_pos w)) in
    match _log budget_id "ACTIVATE_BUDGET" [] w1 with
    | (Ok _, w2) => (Ok true, w2)
    | (Raise e, w2) => (Raise e, w2)
    end
  else (Raise (ValueError InvalidState), w).
Proof.
  intros Hsel. unfold activate_budget. unfold_m. rewrite Hsel.
  destruct (BudgetStatus_eqb (b_status b) APPROVED); simpl; trivial.
Qed.

Lemma close_budget_cases (w : World) (budget_id : string) (b : Budget) :
  select_budget (disk w) budget_id = Some b ->
  close_budget budget_id w =
  if BudgetStatus_eqb (b_status b) ACTIVE
  then
    let now := clock_src w (clock_pos w) in
    let w1 := mkWorld (update_budget (disk w) budget_id (set_status CLOSED now))
                      (uuid_src w) (uuid_pos w) (clock_src w) (S (clock_pos w)) in
    match _log budget_id "CLOSE_BUDGET" [] w1 with
    | (Ok _, w2) => (Ok true, w2)
    | (Raise e, w2) => (Raise e, w2)
    end
  else (Raise (ValueError InvalidState), w).
Proof.
  intros Hsel. unfold close_budget. unfold_m. rewrite Hsel.
  destruct (BudgetStatus_eqb (b_status b) ACTIVE); simpl; trivial.
Qed.

Lemma BudgetStatus_eqb_eq (a b : BudgetStatus) :
  BudgetStatus_eqb a b = true <-> a = b.
Proof. destruct a, b; simpl; split; congruence. Qed.

(** A transition of that shape is guarded. *)
Lemma guard_of_cases (op : M bool) (w : World) (budget_id action : string)
    (details : list frag) (b : Budget) (req tgt : BudgetStatus)
    (set : Budget -> Budget) :
  select_budget (disk w) budget_id = Some b ->
  (forall x, b_budget_id (set x) = b_budget_id x) ->
  (forall x, b_status (set x) = tgt) ->
  op w =
    (if BudgetStatus_eqb (b_status b) req
     then
       match _log budget_id action details
               (mkWorld (update_budget (disk w) budget_id set)
                        (uuid_src w) (uuid_pos w) (clock_src w) (S (clock_pos w))) with
       | (Ok _, w2) => (Ok true, w2)
       | (Raise e, w2) => (Raise e, w2)
       end
     else (Raise (ValueError InvalidState), w)) ->
  transition_guard op w budget_id b req tgt.
Proof.
  intros Hsel Hid Htgt Hop.
  set (w1 := mkWorld (update_budget (disk w) budget_id set)
                     (uuid_src w) (uuid_pos w) (clock_src w) (S (clock_pos w))) in *.
  assert (Hafter : forall w2 x, snd (_log budget_id action details w1) = w2 ->
            x = tt ->
            exists b', select_budget (disk w2) budget_id = Some b' /\ b_status b' = tgt).
  { intros w2 _ <- _.
    destruct (log_frame budget_id action details w1) as (Hb & _ & _).
    exists (set b). split; [| apply Htgt].
    unfold select_budget in *. rewrite Hb.
    change (select_budget (update_budget (disk w) budget_id set) budget_id = Some (set b)).
    rewrite select_budget_update by exact Hid.
    unfold select_budget. rewrite Hsel. reflexivity. }
  destruct (BudgetStatus_eqb (b_status b) req) eqn:E.
  - apply BudgetStatus_eqb_eq in E. repeat split.
    + intros Hne. contradiction.
    + exact E.
    + destruct (_log budget_id action details w1) as [[u | e] w2] eqn:El;
        [| rewrite Hop in H; discriminate].
      rewrite Hop in H. inversion H; subst w'.
      apply (Hafter w2 tt); trivial.
    + intros _ Hfree.
      destruct (log_cases budget_id action details w1) as [[_ El] | [Ex _]].
      * rewrite El in Hop. eexists. split; [exact Hop |].
        apply (Hafter _ tt); trivial. rewrite El. reflexivity.
      * unfold log_id_free, next_uuid in Hfree. rewrite Nat.add_0_r in Hfree.
        simpl in Ex. rewrite Hfree in Ex. discriminate.
  - repeat split.
    + intros _. exact Hop.
    + rewrite Hop in H. discriminate.
    + rewrite Hop in H. discriminate.
    + intros Heq. apply BudgetStatus_eqb_eq in Heq. congruence.
Qed.

(** C4. The status of a budget moves along draft, approved, active,
    closed: [approve_budget] returns only from draft (and leads to
    approved), [activate_budget] only from approved (to active),
    [close_budget] only from active (to closed).  A call made at any
    other status raises the invalid state error and leaves the world,
    hence the status, unchanged; in particular a closed budget rejects the
    three calls. *)
Theorem status_transitions_in_order :
  forall (w : World) (budget_id approved_by : string) (b : Budget),
    select_budget (disk w) budget_id = Some b ->
    transition_guard (approve_budget budget_id approved_by) w budget_id b DRAFT APPROVED /\
    transition_guard (activate_budget budget_id) w budget_id b APPROVED ACTIVE /\
    transition_guard (close_budget budget_id) w budget_id b ACTIVE CLOSED /\
    (b_status b = CLOSED ->
       approve_budget budget_id approved_by w = (Raise (ValueError InvalidState), w) /\
       activate_budget budget_id w = (Raise (ValueError InvalidState), w) /\
       close_budget budget_id w = (Raise (ValueError InvalidState), w)).
Proof.
  intros w budget_id approved_by b Hsel.
  assert (G1 : transition_guard (approve_budget budget_id approved_by) w budget_id b
                                DRAFT APPROVED).
  { eapply guard_of_cases with (set := set_approved approved_by (clock_src w (clock_pos w)));
      eauto using approve_budget_cases. }
  assert (G2 : transition_guard (activate_budget budget_id) w budget_id b APPROVED ACTIVE).
  { eapply guard_of_cases with (set := set_status ACTIVE (clock_src w (clock_pos w)));
      eauto using activate_budget_cases. }
  assert (G3 : transition_guard (close_budget budget_id) w budget_id b ACTIVE CLOSED).
  { eapply guard_of_cases with (set := set_status CLOSED (clock_src w (clock_pos w)));
      eauto using close_budget_cases. }
  split; [exact G1 | split; [exact G2 | split; [exact G3 |]]].
  intros Hc.
  split; [apply (proj1 G1) | split; [apply (proj1 G2) | apply (proj1 G3)]];
    rewrite Hc; discriminate.
Qed.

Lemma status_transitions_in_order_witness :
  transition_guard (approve_budget "A" "Director") draft_world "A" draft_budget
                   DRAFT APPROVED /\
  transition_guard (activate_budget "A") draft_world "A" draft_budget APPROVED ACTIVE /\
  transition_guard (close_budget "A") draft_world "A" draft_budget ACTIVE CLOSED /\
  (b_status draft_budget = CLOSED ->
     approve_budget "A" "Director" draft_world
       = (Raise (ValueError InvalidState), draft_world) /\
     activate_budget "A" draft_world = (Raise (ValueError InvalidState), draft_world) /\
     close_budget "A" draft_world = (Raise (ValueError InvalidState), draft_world)).
Proof.
  apply (status_transitions_in_order draft_world "A" "Director" draft_budget).
  reflexivity.
Defined.

(** The life of the sample budget, and calls made out of turn. *)
Example life_cycle_of_sample_budget :
  map b_status (budgets (disk draft_world)) = [DRAFT] /\
  map b_status (budgets (disk approved_world)) = [APPROVED] /\
  map b_status (budgets (disk active_world)) = [ACTIVE] /\
  map b_status (budgets (disk closed_world)) = [CLOSED].
Proof. repeat split; reflexivity. Qed.

Example activate_on_draft_is_rejected :
  activate_budget "A" draft_world = (Raise (ValueError InvalidState), draft_world).
Proof. reflexivity. Qed.

Example closed_budget_rejects_transitions :
  fst (approve_budget "A" "Director" closed_world) = Raise (ValueError InvalidState) /\
  fst (activate_budget "A" closed_world) = Raise (ValueError InvalidState) /\
  fst (close_budget "A" closed_world) = Raise (ValueError InvalidState) /\
  fst (add_budget_line "A" "IT" "Software" 100000 closed_world)
    = Raise (ValueError InvalidState).
Proof. repeat split; reflexivity. Qed.

(** ** Adding lines *)

(** [_log] in a world whose next identifier is not in the audit log. *)
Lemma log_ok (budget_id action : string) (details : list frag) (w : World) :
  existsb (fun r => String.eqb (a_log_id r) (uuid_src w (uuid_pos w)))
          (audit_log (disk w)) = false ->
  exists w', _log budget_id action details w = (Ok tt, w') /\
             budgets (disk w') = budgets (disk w) /\
             budget_lines (disk w') = budget_lines (disk w) /\
             expenditures (disk w') = expenditures (disk w).
Proof.
  intros Hfree.
  destruct (log_cases budget_id action details w) as [[_ E] | [Ex _]].
  - eexists. split; [exact E |]. simpl. auto.
  - simpl in Ex. rewrite Hfree in Ex. discriminate.
Qed.

(** C5. [add_budget_line] raises the not found error when the budget is
    absent; it raises the invalid state error, and leaves the world as it
    was (no line is added), when the budget is active or closed; on a draft
    or approved budget it returns the new line, stored with the requested
    allocation whatever that is and whatever the budget's total amount is
    (the generated identifiers being unused). *)
Theorem add_budget_line_guard :
  forall (w : World) (budget_id category subcategory : string) (allocated : Q),
    (select_budget (disk w) budget_id = None ->
       add_budget_line budget_id category subcategory allocated w
         = (Raise (ValueError NotFound), w)) /\
    (forall b, select_budget (disk w) budget_id = Some b ->
       b_status b = ACTIVE \/ b_status b = CLOSED ->
       add_budget_line budget_id category subcategory allocated w
         = (Raise (ValueError InvalidState), w)) /\
    (forall b, select_budget (disk w) budget_id = Some b ->
       b_status b = DRAFT \/ b_status b = APPROVED ->
       line_id_free w (next_uuid w 0) ->
       log_id_free w (next_uuid w 1) ->
       exists w',
         let line := mkBudgetLine budget_id category subcategory allocated 0 0
                                  (next_uuid w 0) (next_clock w 0) in
         add_budget_line budget_id category subcategory allocated w = (Ok line, w') /\
         budget_lines (disk w') = budget_lines (disk w) ++ [line]).
Proof.
  intros w budget_id category subcategory allocated.
  split; [| split].
  - intros Hsel. unfold add_budget_line. unfold_m. rewrite Hsel. reflexivity.
  - intros b Hsel Hst. unfold add_budget_line. unfold_m. rewrite Hsel.
    destruct Hst as [-> | ->]; reflexivity.
  - intros b Hsel Hst Hline Hlog.
    unfold line_id_free, log_id_free, next_uuid, next_clock in *.
    rewrite !Nat.add_0_r. rewrite Nat.add_0_r in Hline. rewrite Nat.add_1_r in Hlog.
    unfold add_budget_line, insert_line. unfold_m. rewrite Hsel.
    assert (Hg : negb (BudgetStatus_eqb (b_status b) DRAFT
                       || BudgetStatus_eqb (b_status b) APPROVED) = false)
      by (destruct Hst as [-> | ->]; reflexivity).
    rewrite Hg, Hline. simpl.
    match goal with
    | |- context [_log ?b ?a ?d ?w1] =>
        destruct (log_ok b a d w1 Hlog) as (w' & El & _ & Hl & _); rewrite El
    end.
    exists w'. split; [reflexivity | exact Hl].
Qed.

Lemma add_budget_line_guard_witness :
  (select_budget (disk draft_world) "Z" = None ->
     add_budget_line "Z" "Personnel" "Salaries" 2000000 draft_world
       = (Raise (ValueError NotFound), draft_world)) /\
  (forall b, select_budget (disk active_world) "A" = Some b ->
     b_status b = ACTIVE \/ b_status b = CLOSED ->
     add_budget_line "A" "Personnel" "Salaries" 2000000 active_world
       = (Raise (ValueError InvalidState), active_world)) /\
  (exists w',
     add_budget_line "A" "Personnel" "Salaries" 2000000 draft_world
       = (Ok (mkBudgetLine "A" "Personnel" "Salaries" 2000000 0 0 "C"
                           "2025-01-01T00:00:03"), w') /\
     budget_lines (disk w')
       = [mkBudgetLine "A" "Personnel" "Salaries" 2000000 0 0 "C"
                       "2025-01-01T00:00:03"]).
Proof.
  split; [| split].
  - apply (add_budget_line_guard draft_world "Z" "Personnel" "Salaries" 2000000).
  - apply (add_budget_line_guard active_world "A" "Personnel" "Salaries" 2000000).
  - apply (proj2 (proj2 (add_budget_line_guard draft_world "A" "Personnel" "Salaries"
                           2000000)) draft_budget).
    + reflexivity.
    + left. reflexivity.
    + reflexivity.
    + reflexivity.
Defined.

(** ** Creating budgets *)




(** ** What activation and closure leave alone *)

Lemma update_status_frame (budget_id now : string) (tgt : BudgetStatus)
    (rows : list Budget) :
  Forall2 (fun b b' =>
             b_title b' = b_title b /\
             b_fiscal_year b' = b_fiscal_year b /\
             b_total_amount b' = b_total_amount b /\
             b_department b' = b_department b /\
             b_budget_id b' = b_budget_id b /\
             b_created_at b' = b_created_at b /\
             b_approved_by b' = b_approved_by b /\
             b_approved_at b' = b_approved_at b /\
             b_notes b' = b_notes b /\
             (b_budget_id b = budget_id -> b_status b' = tgt) /\
             (b_budget_id b <> budget_id -> b' = b))
          rows
          (map (fun r => if String.eqb (b_budget_id r) budget_id
                         then set_status tgt now r else r) rows).
Proof.
  induction rows as [| r rows IH]; simpl; constructor; trivial.
  destruct (String.eqb_spec (b_budget_id r) budget_id) as [E | E]; simpl.
  - repeat split; trivial. intros Hne. contradiction.
  - repeat split; trivial. intros He. contradiction.
Qed.

Lemma frame_of_cases (op : M bool) (w : World) (budget_id action : string)
    (details : list frag) (b : Budget) (req tgt : BudgetStatus) :
  op w =
    (if BudgetStatus_eqb (b_status b) req
     then
       match _log budget_id action details
               (mkWorld (update_budget (disk w) budget_id
                           (set_status tgt (clock_src w (clock_pos w))))
                        (uuid_src w) (uuid_pos w) (clock_src w) (S (clock_pos w))) with
       | (Ok _, w2) => (Ok true, w2)
       | (Raise e, w2) => (Raise e, w2)
       end
     else (Raise (ValueError InvalidState), w)) ->
  forall r w', op w = (Ok r, w') ->
    b_status b = req /\ only_status_changed budget_id tgt (disk w) (disk w').
Proof.
  intros Hop r w' Hok. rewrite Hop in Hok.
  destruct (BudgetStatus_eqb (b_status b) req) eqn:E; [| discriminate].
  apply BudgetStatus_eqb_eq in E. split; [exact E |].
  match type of Hok with
  | context [_log ?bi ?a ?d ?w1] =>
      pose proof (log_frame bi a d w1) as Hf;
      destruct (_log bi a d w1) as [[u | e] w2]; [| discriminate]
  end.
  inversion Hok; subst w'. simpl in Hf. destruct Hf as (Hb & Hl & He).
  unfold only_status_changed. rewrite Hb, Hl, He. simpl.
  split; [apply update_status_frame | split; reflexivity].
Qed.

(** C10. When [activate_budget] returns, the budget was approved and the
    call changed its status (to active) and [updated_at] only: title,
    fiscal year, total amount, department, identifier, creation time,
    approver, approval time and notes are the same, and so are all other
    budgets, all budget lines and all expenditures.  Likewise when
    [close_budget] returns, the budget was active and only its status (now
    closed) and [updated_at] changed. *)
Theorem activate_and_close_frame :
  forall (w w' : World) (budget_id : string) (b : Budget) (r : bool),
    select_budget (disk w) budget_id = Some b ->
    (activate_budget budget_id w = (Ok r, w') ->
       b_status b = APPROVED /\
       only_status_changed budget_id ACTIVE (disk w) (disk w')) /\
    (close_budget budget_id w = (Ok r, w') ->
       b_status b = ACTIVE /\
       only_status_changed budget_id CLOSED (disk w) (disk w')).
Proof.
  intros w w' budget_id b r Hsel. split; intros Hok.
  - eapply frame_of_cases; [apply activate_budget_cases; exact Hsel | exact Hok].
  - eapply frame_of_cases; [apply close_budget_cases; exact Hsel | exact Hok].
Qed.

Lemma activate_and_close_frame_witness :
  (b_status approved_budget = APPROVED /\
   only_status_changed "A" ACTIVE (disk approved_world) (disk active_world)) /\
  (b_status active_budget = ACTIVE /\
   only_status_changed "A" CLOSED (disk active_world) (disk closed_world)).
Proof.
  split.
  - apply (proj1 (activate_and_close_frame approved_world active_world "A"
                    approved_budget true eq_refl)).
    vm_compute. reflexivity.
  - apply (proj2 (activate_and_close_frame active_world closed_world "A"
                    active_budget true eq_refl)).
    vm_compute. reflexivity.
Defined.

(** ** The table of budget lines along a sequence of calls *)

Ltac log_step :=
  match goal with
  | |- context [_log ?b ?a ?d ?w1] =>
      let Hf := fresh "Hf" in
      pose proof (log_frame b a d w1) as Hf;
      destruct (_log b a d w1) as [[[] | ?] ?];
      simpl in *; destruct Hf as (? & ? & ?)
  end.

Lemma exec_lines_step (c : call) (w : World) :
  lines_step c (budget_lines (disk w)) (budget_lines (disk (exec c w))).
Proof.
  destruct c as [t fy a d n | b cat sub a | b by_ | b | b
                | l v a d by_ dt r | l a d]; simpl.
  - (* create_budget *)
    replace (budget_lines (disk (snd (create_budget t fy a d n w))))
      with (budget_lines (disk w)); [constructor |].
    unfold create_budget, insert_budget. unfold_m.
    destruct (existsb _ (budgets (disk w))); simpl; trivial.
    log_step; congruence.
  - (* add_budget_line *)
    unfold add_budget_line, insert_line. unfold_m.
    destruct (select_budget (disk w) b) as [row |]; simpl; [| constructor].
    destruct (negb _); simpl; [constructor |].
    destruct (existsb _ (budget_lines (disk w))) eqn:Ex; simpl; [constructor |].
    match goal with
    | |- lines_step _ _ (budget_lines (disk (snd ?x))) =>
        replace (budget_lines (disk (snd x)))
          with (budget_lines (disk w)
                ++ [mkBudgetLine b cat sub a 0 0 (uuid_src w (uuid_pos w))
                                 (clock_src w (clock_pos w))])
    end.
    + eapply step_add; [reflexivity | exact Ex].
    + log_step; congruence.
  - (* approve_budget *)
    replace (budget_lines (disk (snd (approve_budget b by_ w))))
      with (budget_lines (disk w)); [constructor |].
    unfold approve_budget. unfold_m.
    destruct (select_budget (disk w) b) as [row |]; simpl; trivial.
    destruct (negb _); simpl; trivial.
    log_step; congruence.
  - (* activate_budget *)
    replace (budget_lines (disk (snd (activate_budget b w))))
      with (budget_lines (disk w)); [constructor |].
    unfold activate_budget. unfold_m.
    destruct (select_budget (disk w) b) as [row |]; simpl; trivial.
    destruct (negb _); simpl; trivial.
    log_step; congruence.
  - (* close_budget *)
    replace (budget_lines (disk (snd (close_budget b w))))
      with (budget_lines (disk w)); [constructor |].
    unfold close_budget. unfold_m.
    destruct (select_budget (disk w) b) as [row |]; simpl; trivial.
    destruct (negb _); simpl; trivial.
    log_step; congruence.
  - (* record_expenditure *)
    unfold record_expenditure, insert_expenditure. unfold_m.
    destruct (select_line (disk w) l) as [line |] eqn:Hsel; simpl; [| constructor].
    destruct (Qgtb a _) eqn:Hgt; simpl; [constructor |].
    apply Qgtb_false in Hgt.
    destruct (date_or_today dt w) as [[exp_date | e] w1] eqn:Hd; simpl.
    2:{ replace (budget_lines (disk w1)) with (budget_lines (disk w)); [constructor |].
        destruct dt as [[| ch s] |]; unfold date_or_today in Hd; unfold_m;
          inversion Hd; reflexivity. }
    assert (Hw1 : disk w1 = disk w).
    { destruct dt as [[| ch s] |]; unfold date_or_today in Hd; unfold_m;
        inversion Hd; reflexivity. }
    destruct (existsb _ (expenditures (disk w))); simpl.
    + rewrite Hw1. constructor.
    + match goal with
      | |- lines_step _ _ (budget_lines (disk (snd ?x))) =>
          replace (budget_lines (disk (snd x)))
            with (map (fun r => if String.eqb (l_line_id r) l
                                then add_spent a r else r)
                      (budget_lines (disk w)))
      end.
      * eapply step_spend; [reflexivity | exact Hsel | exact Hgt].
      * log_step; congruence.
  - (* commit_funds *)
    unfold commit_funds. unfold_m.
    destruct (select_line (disk w) l) as [line |] eqn:Hsel; simpl; [| constructor].
    destruct (Qgtb a _) eqn:Hgt; simpl; [constructor |].
    apply Qgtb_false in Hgt.
    match goal with
    | |- lines_step _ _ (budget_lines (disk (snd ?x))) =>
        replace (budget_lines (disk (snd x)))
          with (map (fun r => if String.eqb (l_line_id r) l
                              then add_committed a r else r)
                    (budget_lines (disk w)))
    end.
    + eapply step_commit; [reflexivity | exact Hsel | exact Hgt].
    + log_step; congruence.
Qed.

Lemma existsb_false_not_in_ids (rows : list BudgetLine) (id : string) :
  existsb (fun r => String.eqb (l_line_id r) id) rows = false ->
  ~ In id (map l_line_id rows).
Proof.
  induction rows as [| r rows IH]; simpl; [tauto |].
  intros H. apply orb_false_iff in H. destruct H as [Hr Hrest].
  intros [E | Hin].
  - rewrite E, String.eqb_refl in Hr. discriminate.
  - exact (IH Hrest Hin).
Qed.


Lemma update_keeps_ids (id : string) (set : BudgetLine -> BudgetLine)
    (rows : list BudgetLine) :
  (forall l, l_line_id (set l) = l_line_id l) ->
  map l_line_id (map (fun r => if String.eqb (l_line_id r) id then set r else r) rows)
  = map l_line_id rows.
Proof.
  intros Hid. rewrite map_map. apply map_ext. intros r.
  destruct (String.eqb (l_line_id r) id); [apply Hid | reflexivity].
Qed.

(** One call keeps the primary key of the lines table. *)
Lemma lines_step_keys (c : call) (rows rows' : list BudgetLine) :
  lines_step c rows rows' ->
  NoDup (map l_line_id rows) -> NoDup (map l_line_id rows').
Proof.
  intros Hstep Hnd. destruct Hstep as [| ? ? ? ? ? ? _ Hfree | |].
  - exact Hnd.
  - rewrite map_app. simpl.
    apply Permutation_NoDup with (l := line_id :: map l_line_id rows).
    + apply Permutation_cons_append.
    + constructor; [apply existsb_false_not_in_ids; exact Hfree | exact Hnd].
  - rewrite update_keeps_ids; trivial.
  - rewrite update_keeps_ids; trivial.
Qed.



Lemma run_app (cs1 cs2 : list call) (w : World) :
  run (cs1 ++ cs2) w = run cs2 (run cs1 w).
Proof. unfold run. apply fold_left_app. Qed.

(** Along any sequence of calls the lines table keeps its primary key. *)
Lemma run_keys (cs : list call) (w : World) :
  NoDup (map l_line_id (budget_lines (disk w))) ->
  NoDup (map l_line_id (budget_lines (disk (run cs w)))).
Proof.
  revert w. induction cs as [| c cs IH]; intros w Hnd; simpl; trivial.
  apply IH. eapply lines_step_keys; [apply exec_lines_step | exact Hnd].
Qed.

(** ** The allocation is never exceeded *)



Example busy_calls_outcome :
  map (fun l => (l_allocated l, l_spent l, l_committed l))
      (budget_lines (disk (run busy_calls sample_world)))
  = [(10000, 0 + 4000, 0 + 6000)].
Proof. reflexivity. Qed.


(** ** Signs of the accumulators and of the available amount *)


Lemma date_or_today_disk (date : option string) (w : World) :
  exists s w1, date_or_today date w = (Ok s, w1) /\ disk w1 = disk w.
Proof.
  destruct date as [[| ch s] |]; unfold date_or_today; unfold_m;
    eexists; eexists; split; reflexivity.
Qed.






(** ** Rounding *)





(** ** Sums and the ORDER BY clause *)




Lemma insert_by_permutation (x : BudgetLine) (rows : list BudgetLine) :
  Permutation (insert_by x rows) (x :: rows).
Proof.
  induction rows as [| y rows IH]; simpl.
  - reflexivity.
  - destruct (line_leb x y).
    + reflexivity.
    + rewrite IH. apply perm_swap.
Qed.

Lemma order_by_permutation (rows : list BudgetLine) :
  Permutation (order_by rows) rows.
Proof.
  unfold order_by. induction rows as [| x rows IH]; simpl.
  - reflexivity.
  - rewrite insert_by_permutation. constructor. exact IH.
Qed.

(** The rows the variance report is built from are the lines of the
    budget. *)
Lemma select_lines_in (conn : Db) (budget_id : string) (l : BudgetLine) :
  In l (select_lines conn budget_id) <->
  In l (budget_lines conn) /\ l_budget_id l = budget_id.
Proof.
  unfold select_lines, lines_of. split.
  - intros H. apply (Permutation_in _ (order_by_permutation _)) in H.
    apply filter_In in H. destruct H as [Hin He].
    apply String.eqb_eq in He. auto.
  - intros [Hin He].
    apply (Permutation_in _ (Permutation_sym (order_by_permutation _))).
    apply filter_In. split; trivial. apply String.eqb_eq. exact He.
Qed.

(** [get_variance] only reads: it returns the world it was given. *)
Lemma get_variance_found (w : World) (budget_id : string) (b : Budget) :
  select_budget (disk w) budget_id = Some b ->
  get_variance budget_id w =
  (Ok (let lines := select_lines (disk w) budget_id in
       mkVarianceReport budget_id (b_title b) (b_fiscal_year b) (b_department b)
         (b_status b) (b_total_amount b)
         (sum (map l_allocated lines)) (sum (map l_spent lines))
         (sum (map l_committed lines))
         (sum (map l_allocated lines) - sum (map l_spent lines)
          - sum (map l_committed lines))
         (pct_of (sum (map l_spent lines)) (sum (map l_allocated lines)))
         (b_total_amount b - sum (map l_allocated lines))
         (map line_variance lines)), w).
Proof.
  intros Hsel. unfold get_variance. unfold_m. rewrite Hsel. reflexivity.
Qed.

Lemma get_variance_not_found (w : World) (budget_id : string) :
  select_budget (disk w) budget_id = None ->
  get_variance budget_id w = (Raise (ValueError NotFound), w).
Proof.
  intros Hsel. unfold get_variance. unfold_m. rewrite Hsel. reflexivity.
Qed.

(** ** Line status in the variance report *)




Example cloud_variance :
  get_variance "A" cloud_world = (Ok cloud_report, cloud_world).
Proof. vm_compute. reflexivity. Qed.

(** ** Totals of the variance report *)







(** ** Compliance *)

Lemma check_lines_fold (lvs : list LineVariance) (issues : list issue)
    (warnings : list warning) :
  fold_left check_line lvs (issues, warnings)
  = (issues ++ flat_map line_issue lvs, warnings ++ flat_map line_warning lvs).
Proof.
  revert issues warnings.
  induction lvs as [| lv lvs IH]; intros issues warnings; simpl.
  - rewrite !app_nil_r. reflexivity.
  - unfold line_issue, line_warning.
    destruct (Qltb (lv_available lv) 0); simpl.
    + rewrite IH, <- app_assoc. reflexivity.
    + destruct (Qgtb (lv_utilization_pct lv) 90); simpl; rewrite IH.
      * rewrite <- app_assoc. reflexivity.
      * reflexivity.
Qed.

(** [compliance_check] on an existing budget, in closed form. *)
Lemma compliance_check_found (w : World) (budget_id : string) (v : VarianceReport) :
  get_variance budget_id w = (Ok v, w) ->
  compliance_check budget_id w =
  (Ok (let n := exps_without_receipt (disk w) budget_id in
       let issues :=
         (if Qltb (v_unallocated v) 0
          then [OVER_ALLOCATED (Qabs (v_unallocated v))] else [])
         ++ flat_map line_issue (v_lines v) in
       mkComplianceReport budget_id (Nat.eqb (List.length issues) 0) issues
         (flat_map line_warning (v_lines v)
          ++ (if (0 <? n)%nat then [MISSING_RECEIPTS n] else []))
         (clock_src w (clock_pos w))),
   mkWorld (disk w) (uuid_src w) (uuid_pos w) (clock_src w) (S (clock_pos w))).
Proof.
  intros Hv. unfold compliance_check. unfold bind at 1. rewrite Hv.
  rewrite check_lines_fold. unfold_m.
  destruct (0 <? exps_without_receipt (disk w) budget_id)%nat;
    rewrite ?app_nil_r; reflexivity.
Qed.

Lemma filter_flat_map_nil {A B} (p : B -> bool) (f : A -> list B) (xs : list A) :
  (forall x y, In y (f x) -> p y = false) ->
  filter p (flat_map f xs) = [].
Proof.
  intros H. induction xs as [| x xs IH]; simpl; trivial.
  rewrite filter_app, IH, app_nil_r.
  assert (G : forall ys, (forall y, In y ys -> p y = false) -> filter p ys = []).
  { induction ys as [| y ys IHy]; simpl; trivial. intros Hy.
    rewrite (Hy y (or_introl eq_refl)). apply IHy. intros z Hz. apply Hy. right. exact Hz. }
  apply G. apply H.
Qed.

Lemma report_findings_hold (w : World) (budget_id : string) (v : VarianceReport)
    (rep : ComplianceReport) (w' : World) :
  get_variance budget_id w = (Ok v, w) ->
  compliance_check budget_id w = (Ok rep, w') ->
  report_findings v (exps_without_receipt (disk w) budget_id) rep.
Proof.
  intros Hv Hc. rewrite (compliance_check_found w budget_id v Hv) in Hc.
  inversion Hc; subst rep w'; clear Hc.
  set (n := exps_without_receipt (disk w) budget_id).
  unfold report_findings. cbn [c_compliant c_issues c_warnings].
  assert (Hspent : forall xs, filter is_over_allocated (flat_map line_issue xs) = []).
  { intros xs. apply filter_flat_map_nil. intros x y. unfold line_issue.
    destruct (Qltb _ _); simpl; [intros [<- | []]; reflexivity | tauto]. }
  assert (Hwarn : forall xs, filter is_missing_receipts (flat_map line_warning xs) = []).
  { intros xs. apply filter_flat_map_nil. intros x y. unfold line_warning.
    destruct (Qltb _ _); simpl; [tauto |].
    destruct (Qgtb _ _); simpl; [intros [<- | []]; reflexivity | tauto]. }
  split; [| split; [| split; [| split; [| split; [| split; [| split; [| split]]]]]]].
  - rewrite Nat.eqb_eq. split.
    + intros H. apply length_zero_iff_nil. exact H.
    + intros ->. reflexivity.
  - intros Hlt. apply Qltb_true in Hlt. rewrite Hlt, filter_app, Hspent. reflexivity.
  - intros Hge. apply Qltb_false in Hge. rewrite Hge. simpl. apply Hspent.
  - intros lv Hin Hlt. apply in_or_app. right. apply in_flat_map.
    exists lv. split; trivial. unfold line_issue.
    apply Qltb_true in Hlt. rewrite Hlt. left. reflexivity.
  - intros lv Hin Hge Hgt. apply in_or_app. left. apply in_flat_map.
    exists lv. split; trivial. unfold line_warning.
    apply Qltb_false in Hge. apply Qgtb_true in Hgt. rewrite Hge, Hgt.
    left. reflexivity.
  - intros c s x Hin. apply in_app_or in Hin. destruct Hin as [Hin | Hin].
    + destruct (Qltb (v_unallocated v) 0); simpl in Hin;
        [destruct Hin as [Hin | []]; discriminate | contradiction].
    + apply in_flat_map in Hin. destruct Hin as (lv & Hlv & Hin).
      unfold line_issue in Hin.
      destruct (Qltb (lv_available lv) 0) eqn:E; simpl in Hin; [| contradiction].
      destruct Hin as [Hin | []]. inversion Hin; subst.
      exists lv. apply Qltb_true in E. repeat split; trivial.
  - intros p c s Hin. apply in_app_or in Hin. destruct Hin as [Hin | Hin].
    + apply in_flat_map in Hin. destruct Hin as (lv & Hlv & Hin).
      unfold line_warning in Hin.
      destruct (Qltb (lv_available lv) 0) eqn:E; simpl in Hin; [contradiction |].
      destruct (Qgtb (lv_utilization_pct lv) 90) eqn:E2; simpl in Hin;
        [| contradiction].
      destruct Hin as [Hin | []]. inversion Hin; subst.
      exists lv. apply Qltb_false in E. apply Qgtb_true in E2.
      split; [exact Hlv | split; [exact E | split; [exact E2 | auto]]].
    + destruct (0 <? n)%nat; simpl in Hin;
        [destruct Hin as [Hin | []]; discriminate | contradiction].
  - intros Hn. apply Nat.ltb_lt in Hn. rewrite Hn, filter_app, Hwarn. reflexivity.
  - intros Hn. rewrite Hn. simpl. rewrite app_nil_r. apply Hwarn.
Qed.

(** Counting through the JOIN: under the primary key of the lines table an
    expenditure is joined with one line at most. *)
Lemma filter_pairs_length (e : Expenditure) (p : Expenditure * BudgetLine -> bool)
    (rows : list BudgetLine) :
  List.length (filter p (map (fun l => (e, l)) rows))
  = List.length (filter (fun l => p (e, l)) rows).
Proof.
  induction rows as [| l rows IH]; simpl; trivial.
  destruct (p (e, l)); simpl; congruence.
Qed.

Lemma no_line_no_match (k budget_id : string) (c : bool) (rows : list BudgetLine) :
  ~ In k (map l_line_id rows) ->
  filter (fun l => String.eqb k (l_line_id l) && String.eqb (l_budget_id l) budget_id && c)
         rows = [] /\
  existsb (fun l => String.eqb k (l_line_id l) && String.eqb (l_budget_id l) budget_id)
          rows = false.
Proof.
  induction rows as [| l rows IH]; simpl; [auto |].
  intros Hnot.
  destruct (String.eqb_spec k (l_line_id l)) as [E | E].
  - exfalso. apply Hnot. left. symmetry. exact E.
  - simpl. apply IH. tauto.
Qed.

Lemma joined_lines_count (k budget_id : string) (c : bool) (rows : list BudgetLine) :
  NoDup (map l_line_id rows) ->
  List.length
    (filter (fun l => String.eqb k (l_line_id l) && String.eqb (l_budget_id l) budget_id
                      && c) rows)
  = if existsb (fun l => String.eqb k (l_line_id l)
                         && String.eqb (l_budget_id l) budget_id) rows && c
    then 1%nat else 0%nat.
Proof.
  induction rows as [| l rows IH]; simpl; intros Hnd; trivial.
  inversion Hnd as [| ? ? Hnotin Hnd']; subst.
  destruct (String.eqb_spec k (l_line_id l)) as [E | E]; simpl.
  - rewrite <- E in Hnotin.
    destruct (no_line_no_match k budget_id c rows Hnotin) as [Hf He].
    rewrite Hf, He.
    destruct (String.eqb (l_budget_id l) budget_id), c; reflexivity.
  - apply IH. exact Hnd'.
Qed.

Lemma exps_without_receipt_count (d : Db) (budget_id : string) :
  NoDup (map l_line_id (budget_lines d)) ->
  exps_without_receipt d budget_id
  = List.length (filter (fun e => is_none (e_receipt_ref e)) (expenditures_of d budget_id)).
Proof.
  intros Hnd. unfold exps_without_receipt, expenditures_of.
  induction (expenditures d) as [| e es IH]; simpl; trivial.
  rewrite filter_app, length_app, filter_pairs_length. cbn [fst snd].
  rewrite (joined_lines_count (e_budget_line_id e) budget_id
             (is_none (e_receipt_ref e)) (budget_lines d) Hnd).
  rewrite IH.
  destruct (existsb _ (budget_lines d)); simpl; [| reflexivity].
  destruct (is_none (e_receipt_ref e)); reflexivity.
Qed.

(** C7, as the code has it. For an existing budget [compliance_check]
    returns a report, built on the variance report of the budget, that
    - is compliant exactly when its list of issues is empty;
    - holds one over-allocation issue when unallocated < 0 and none
      otherwise;
    - holds an over-spend issue for every line with available < 0, and no
      other over-spend issue;
    - holds a high-utilization warning for every line with available >= 0
      and utilization above 90, and no other such warning: a line with
      available < 0 gets the over-spend issue only;
    - holds exactly one missing-receipt warning, carrying their number,
      when some expenditure of the budget has no receipt reference, and none
      otherwise.
    The store is left as it was. *)
Theorem compliance_findings :
  forall (w : World) (budget_id : string) (b : Budget),
    select_budget (disk w) budget_id = Some b ->
    exists v rep w',
      get_variance budget_id w = (Ok v, w) /\
      compliance_check budget_id w = (Ok rep, w') /\
      disk w' = disk w /\
      report_findings v (exps_without_receipt (disk w) budget_id) rep /\
      (NoDup (map l_line_id (budget_lines (disk w))) ->
       exps_without_receipt (disk w) budget_id
       = List.length (filter (fun e => is_none (e_receipt_ref e))
                             (expenditures_of (disk w) budget_id))).
Proof.
  intros w budget_id b Hsel.
  pose proof (get_variance_found w budget_id b Hsel) as Hv.
  eexists. eexists. eexists.
  split; [exact Hv |].
  split; [apply compliance_check_found; exact Hv |].
  split; [reflexivity |].
  split.
  - eapply report_findings_hold; [exact Hv | apply compliance_check_found; exact Hv].
  - apply exps_without_receipt_count.
Qed.

Lemma compliance_findings_witness :
  exists v rep w',
    get_variance "A" cloud_world = (Ok v, cloud_world) /\
    compliance_check "A" cloud_world = (Ok rep, w') /\
    disk w' = disk cloud_world /\
    report_findings v (exps_without_receipt (disk cloud_world) "A") rep /\
    (NoDup (map l_line_id (budget_lines (disk cloud_world))) ->
     exps_without_receipt (disk cloud_world) "A"
     = List.length (filter (fun e => is_none (e_receipt_ref e))
                           (expenditures_of (disk cloud_world) "A"))).
Proof.
  apply (compliance_findings cloud_world "A" cloud_budget).
  vm_compute. reflexivity.
Defined.

(** The scenario "one expenditure without a receipt reference". *)
Example one_missing_receipt_warning :
  exists rep w',
    compliance_check "A" cloud_world = (Ok rep, w') /\
    c_compliant rep = true /\
    c_issues rep = [] /\
    c_warnings rep = [MISSING_RECEIPTS 1].
Proof.
  eexists. eexists. split.
  - apply compliance_check_found. vm_compute. reflexivity.
  - repeat split; vm_compute; reflexivity.
Qed.

(** C7 as stated fails on a line spent beyond its allocation: its
    utilization is 200, above 90, and the report has the over-spend issue
    but no high-utilization warning for it. *)
Lemma high_utilization_counterexample :
  exists v rep w' lv,
    get_variance "A" overspent_world = (Ok v, overspent_world) /\
    compliance_check "A" overspent_world = (Ok rep, w') /\
    In lv (v_lines v) /\
    90 < lv_utilization_pct lv /\
    c_issues rep = [OVER_SPENT "Legal" "Contracts" (Qabs (100 - 200 - 0))] /\
    c_warnings rep = [].
Proof.
  exists (mkVarianceReport "A" "FY2025 Budget" 2025 "Finance" DRAFT 1000000
            (0 + 100) (0 + 200) (0 + 0) (0 + 100 - (0 + 200) - (0 + 0))
            (pct_of (0 + 200) (0 + 100)) (1000000 - (0 + 100))
            [line_variance overspent_line]).
  eexists. eexists. exists (line_variance overspent_line).
  assert (Hv : get_variance "A" overspent_world
               = (Ok (mkVarianceReport "A" "FY2025 Budget" 2025 "Finance" DRAFT 1000000
                        (0 + 100) (0 + 200) (0 + 0) (0 + 100 - (0 + 200) - (0 + 0))
                        (pct_of (0 + 200) (0 + 100)) (1000000 - (0 + 100))
                        [line_variance overspent_line]), overspent_world))
    by reflexivity.
  split; [exact Hv |].
  split; [apply compliance_check_found; exact Hv |].
  split; [left; reflexivity |].
  split; [reflexivity |].
  split; reflexivity.
Qed.

(** ** The tests of the repository, on the model *)

Example test_create_budget :
  exists b w',
    create_budget "FY2025 Budget" 2025 1000000 "Finance" EmptyString sample_world
      = (Ok b, w') /\
    b_title b = "FY2025 Budget" /\ b_status b = DRAFT /\ b_total_amount b = 1000000.
Proof.
  exists draft_budget, draft_world. split; [vm_compute; reflexivity |].
  repeat split.
Qed.

Example test_add_budget_line :
  exists l w',
    add_budget_line "A" "Personnel" "Salaries" 500000 draft_world = (Ok l, w') /\
    l_category l = "Personnel" /\ l_allocated l = 500000 /\ l_spent l = 0.
Proof.
  exists (mkBudgetLine "A" "Personnel" "Salaries" 500000 0 0 "C" "2025-01-01T00:00:03").
  exists (snd (add_budget_line "A" "Personnel" "Salaries" 500000 draft_world)).
  split; [vm_compute; reflexivity |]. repeat split.
Qed.

Example test_record_expenditure :
  exists r,
    get_variance "A" travel_world = (Ok r, travel_world) /\
    map (fun lv => (lv_line_id lv, lv_spent lv)) (v_lines r) = [("C", 0 + 1200)].
Proof.
  eexists. split.
  - apply get_variance_found with (b := cloud_budget). vm_compute. reflexivity.
  - reflexivity.
Qed.

Example test_over_budget_error :
  fst (record_expenditure "C" "Law Firm" 15000 "Legal fees" "CFO" None None legal_world)
  = Raise (ValueError InsufficientFunds).
Proof. reflexivity. Qed.

(** ** What binary rounding adds *)

(** On binary64 numbers the availability test does not keep [spent] below
    [allocated].  A line is allocated 58.79 and 17.56 is spent; the
    available amount is then computed as 41.230000000000004.  Spending
    exactly that amount passes the test, and the sum [17.56 +
    41.230000000000004] rounds to 58.790000000000006: [spent] is now above
    [allocated] and the available amount is negative. *)
Example rounding_can_overdraw :
  let zero := b64_of_Z 0 in
  let allocated := b64_decimal 5879 100 in
  let spent := spend64 zero (b64_decimal 1756 100) in
  let amount := available64 allocated spent zero in
  exceeds64 (b64_decimal 1756 100) (available64 allocated zero zero) = false /\
  exceeds64 amount (available64 allocated spent zero) = false /\
  allocated = S754_finite false 8273956940409733 (-47) /\
  spend64 spent amount = S754_finite false 8273956940409734 (-47) /\
  SFltb allocated (spend64 spent amount) = true /\
  SFltb (available64 allocated (spend64 spent amount) zero) zero = true.
Proof. vm_compute. repeat split. Qed.

(** * Further properties *)

(** ** What a call does to the store *)

Lemma logged_refl (d : Db) : logged d d.
Proof. unfold logged. auto. Qed.

Lemma log_logged (budget_id action : string) (details : list frag) (w : World) :
  logged (disk w) (disk (snd (_log budget_id action details w))).
Proof.
  destruct (log_cases budget_id action details w) as [[Hfree E] | [_ E]];
    simpl in *; rewrite E; simpl; unfold logged; simpl.
  - repeat split; trivial. right. eexists. split; [| reflexivity]. exact Hfree.
  - auto.
Qed.

Ltac log_effect :=
  match goal with
  | |- context [_log ?b ?a ?d ?w1] =>
      let Hl := fresh "Hl" in
      pose proof (log_logged b a d w1) as Hl;
      destruct (_log b a d w1) as [[[] | ?] ?];
      simpl in Hl |- *; exact Hl
  end.

(** Every call is a mutation of the store followed by what [_log] adds. *)
Lemma exec_effect (c : call) (w : World) :
  exists d1, mutation (disk w) c d1 /\ logged d1 (disk (exec c w)).
Proof.
  destruct c as [t fy a d n | b cat sub a | b by_ | b | b
                | l v a d by_ dt r | l a d]; simpl.
  - (* create_budget *)
    unfold create_budget, insert_budget. unfold_m.
    destruct (existsb _ (budgets (disk w))) eqn:Ex; simpl.
    + exists (disk w). split; [left; reflexivity | apply logged_refl].
    + eexists. split; [right; eapply mut_create; exact Ex |]. log_effect.
  - (* add_budget_line *)
    unfold add_budget_line, insert_line. unfold_m.
    destruct (select_budget (disk w) b) as [row |] eqn:Hsel; simpl;
      [| exists (disk w); split; [left; reflexivity | apply logged_refl]].
    destruct (negb _) eqn:Hg; simpl;
      [exists (disk w); split; [left; reflexivity | apply logged_refl] |].
    destruct (existsb _ (budget_lines (disk w))) eqn:Ex; simpl;
      [exists (disk w); split; [left; reflexivity | apply logged_refl] |].
    eexists. split.
    + right. eapply mut_add; [exact Hsel | | exact Ex].
      destruct (b_status row); simpl in Hg; try discriminate; auto.
    + log_effect.
  - (* approve_budget *)
    unfold approve_budget. unfold_m.
    destruct (select_budget (disk w) b) as [row |] eqn:Hsel; simpl;
      [| exists (disk w); split; [left; reflexivity | apply logged_refl]].
    destruct (negb _) eqn:Hg; simpl;
      [exists (disk w); split; [left; reflexivity | apply logged_refl] |].
    eexists. split.
    + right. eapply mut_approve; [exact Hsel |].
      destruct (b_status row); simpl in Hg; try discriminate; auto.
    + log_effect.
  - (* activate_budget *)
    unfold activate_budget. unfold_m.
    destruct (select_budget (disk w) b) as [row |] eqn:Hsel; simpl;
      [| exists (disk w); split; [left; reflexivity | apply logged_refl]].
    destruct (negb _) eqn:Hg; simpl;
      [exists (disk w); split; [left; reflexivity | apply logged_refl] |].
    eexists. split.
    + right. eapply mut_activate; [exact Hsel |].
      destruct (b_status row); simpl in Hg; try discriminate; auto.
    + log_effect.
  - (* close_budget *)
    unfold close_budget. unfold_m.
    destruct (select_budget (disk w) b) as [row |] eqn:Hsel; simpl;
      [| exists (disk w); split; [left; reflexivity | apply logged_refl]].
    destruct (negb _) eqn:Hg; simpl;
      [exists (disk w); split; [left; reflexivity | apply logged_refl] |].
    eexists. split.
    + right. eapply mut_close; [exact Hsel |].
      destruct (b_status row); simpl in Hg; try discriminate; auto.
    + log_effect.
  - (* record_expenditure *)
    unfold record_expenditure, insert_expenditure. unfold_m.
    destruct (select_line (disk w) l) as [line |] eqn:Hsel; simpl;
      [| exists (disk w); split; [left; reflexivity | apply logged_refl]].
    destruct (Qgtb a _) eqn:Hgt; simpl;
      [exists (disk w); split; [left; reflexivity | apply logged_refl] |].
    apply Qgtb_false in Hgt.
    destruct (date_or_today_disk dt w) as (s & w1 & -> & Hd). simpl.
    destruct (existsb _ (expenditures (disk w))) eqn:Ex; simpl.
    + exists (disk w). split; [left; reflexivity | rewrite Hd; apply logged_refl].
    + eexists. split; [right; eapply mut_spend; [exact Hsel | exact Hgt | exact Ex] |].
      log_effect.
  - (* commit_funds *)
    unfold commit_funds. unfold_m.
    destruct (select_line (disk w) l) as [line |] eqn:Hsel; simpl;
      [| exists (disk w); split; [left; reflexivity | apply logged_refl]].
    destruct (Qgtb a _) eqn:Hgt; simpl;
      [exists (disk w); split; [left; reflexivity | apply logged_refl] |].
    apply Qgtb_false in Hgt.
    eexists. split; [right; eapply mut_commit; [exact Hsel | exact Hgt] |].
    log_effect.
Qed.

Ltac log_returned :=
  match goal with
  | |- context [_log ?b ?a ?d ?w1] =>
      destruct (log_cases b a d w1) as [[Hfree E] | [_ E]];
      [simpl in E, Hfree | simpl in E];
      rewrite E; simpl; intros Hout; [| discriminate];
      eexists; eexists
  end.

Ltac finish_returned :=
  refine (conj _ (conj _ (conj _ (conj _ eq_refl))));
  [match goal with H : existsb _ (audit_log _) = false |- _ => exact H end
  | reflexivity ..].

(** A call that returns has committed its statements and logged one row. *)
Lemma exec_returned (c : call) (w : World) :
  outcome c w = None ->
  exists d1 row,
    committed (disk w) c d1 /\
    existsb (fun r => String.eqb (a_log_id r) (a_log_id row)) (audit_log (disk w))
      = false /\
    a_action row = action_of c /\
    a_user_id row = "system" /\
    a_budget_id row = subject_of c w /\
    disk (exec c w)
      = mkDb (budgets d1) (budget_lines d1) (expenditures d1)
             (audit_log (disk w) ++ [row]).
Proof.
  destruct c as [t fy a d n | b cat sub a | b by_ | b | b
                | l v a d by_ dt r | l a d]; simpl.
  - unfold create_budget, insert_budget. unfold_m.
    destruct (existsb _ (budgets (disk w))) eqn:Ex; simpl; [discriminate |].
    log_returned.
    split; [eapply mut_create; exact Ex |].
    finish_returned.
  - unfold add_budget_line, insert_line. unfold_m.
    destruct (select_budget (disk w) b) as [row |] eqn:Hsel; simpl; [| discriminate].
    destruct (negb _) eqn:Hg; simpl; [discriminate |].
    destruct (existsb _ (budget_lines (disk w))) eqn:Ex; simpl; [discriminate |].
    log_returned.
    split.
    { eapply mut_add; [exact Hsel | | exact Ex].
      destruct (b_status row); simpl in Hg; try discriminate; auto. }
    finish_returned.
  - unfold approve_budget. unfold_m.
    destruct (select_budget (disk w) b) as [row |] eqn:Hsel; simpl; [| discriminate].
    destruct (negb _) eqn:Hg; simpl; [discriminate |].
    log_returned.
    split.
    { eapply mut_approve; [exact Hsel |].
      destruct (b_status row); simpl in Hg; try discriminate; auto. }
    finish_returned.
  - unfold activate_budget. unfold_m.
    destruct (select_budget (disk w) b) as [row |] eqn:Hsel; simpl; [| discriminate].
    destruct (negb _) eqn:Hg; simpl; [discriminate |].
    log_returned.
    split.
    { eapply mut_activate; [exact Hsel |].
      destruct (b_status row); simpl in Hg; try discriminate; auto. }
    finish_returned.
  - unfold close_budget. unfold_m.
    destruct (select_budget (disk w) b) as [row |] eqn:Hsel; simpl; [| discriminate].
    destruct (negb _) eqn:Hg; simpl; [discriminate |].
    log_returned.
    split.
    { eapply mut_close; [exact Hsel |].
      destruct (b_status row); simpl in Hg; try discriminate; auto. }
    finish_returned.
  - unfold record_expenditure, insert_expenditure. unfold_m.
    destruct (select_line (disk w) l) as [line |] eqn:Hsel; simpl; [| discriminate].
    destruct (Qgtb a _) eqn:Hgt; simpl; [discriminate |].
    apply Qgtb_false in Hgt.
    destruct (date_or_today_disk dt w) as (s & w1 & -> & Hd). simpl.
    destruct (existsb _ (expenditures (disk w))) eqn:Ex; simpl; [discriminate |].
    log_returned.
    split; [eapply mut_spend; [exact Hsel | exact Hgt | exact Ex] |].
    finish_returned.
  - unfold commit_funds. unfold_m.
    destruct (select_line (disk w) l) as [line |] eqn:Hsel; simpl; [| discriminate].
    destruct (Qgtb a _) eqn:Hgt; simpl; [discriminate |].
    apply Qgtb_false in Hgt.
    log_returned.
    split; [eapply mut_commit; [exact Hsel | exact Hgt] |].
    finish_returned.
Qed.

(** X1. A call that raises [ValueError] (budget or line not found, status
    not allowed, amount above the available amount) has done nothing: the
    world it leaves is the world it was given, store, audit log and
    environment. *)
Theorem value_error_changes_nothing :
  forall (c : call) (w : World) (k : error_kind),
    outcome c w = Some (ValueError k) -> exec c w = w.
Proof.
  intros c w k.
  destruct c as [t fy a d n | b cat sub a | b by_ | b | b
                | l v a d by_ dt r | l a d]; simpl.
  - unfold create_budget, insert_budget. unfold_m.
    destruct (existsb _ (budgets (disk w))); simpl; [discriminate |].
    match goal with
    | |- context [_log ?b ?a ?d ?w1] =>
        destruct (log_cases b a d w1) as [[_ E] | [_ E]]; rewrite E; simpl; discriminate
    end.
  - unfold add_budget_line, insert_line. unfold_m.
    destruct (select_budget (disk w) b) as [row |]; simpl; trivial.
    destruct (negb _); simpl; trivial.
    destruct (existsb _ (budget_lines (disk w))); simpl; [discriminate |].
    match goal with
    | |- context [_log ?b ?a ?d ?w1] =>
        destruct (log_cases b a d w1) as [[_ E] | [_ E]]; rewrite E; simpl; discriminate
    end.
  - unfold approve_budget. unfold_m.
    destruct (select_budget (disk w) b) as [row |]; simpl; trivial.
    destruct (negb _); simpl; trivial.
    match goal with
    | |- context [_log ?b ?a ?d ?w1] =>
        destruct (log_cases b a d w1) as [[_ E] | [_ E]]; rewrite E; simpl; discriminate
    end.
  - unfold activate_budget. unfold_m.
    destruct (select_budget (disk w) b) as [row |]; simpl; trivial.
    destruct (negb _); simpl; trivial.
    match goal with
    | |- context [_log ?b ?a ?d ?w1] =>
        destruct (log_cases b a d w1) as [[_ E] | [_ E]]; rewrite E; simpl; discriminate
    end.
  - unfold close_budget. unfold_m.
    destruct (select_budget (disk w) b) as [row |]; simpl; trivial.
    destruct (negb _); simpl; trivial.
    match goal with
    | |- context [_log ?b ?a ?d ?w1] =>
        destruct (log_cases b a d w1) as [[_ E] | [_ E]]; rewrite E; simpl; discriminate
    end.
  - unfold record_expenditure, insert_expenditure. unfold_m.
    destruct (select_line (disk w) l) as [line |]; simpl; trivial.
    destruct (Qgtb a _); simpl; trivial.
    destruct (date_or_today_disk dt w) as (s & w1 & -> & Hd). simpl.
    destruct (existsb _ (expenditures (disk w))); simpl; [discriminate |].
    match goal with
    | |- context [_log ?b ?a ?d ?w1] =>
        destruct (log_cases b a d w1) as [[_ E] | [_ E]]; rewrite E; simpl; discriminate
    end.
  - unfold commit_funds. unfold_m.
    destruct (select_line (disk w) l) as [line |]; simpl; trivial.
    destruct (Qgtb a _); simpl; trivial.
    match goal with
    | |- context [_log ?b ?a ?d ?w1] =>
        destruct (log_cases b a d w1) as [[_ E] | [_ E]]; rewrite E; simpl; discriminate
    end.
Qed.

(** ** Keys and rows *)

Lemma existsb_key_false {A : Type} (key : A -> string) (rows : list A) (id : string) :
  existsb (fun r => String.eqb (key r) id) rows = false ->
  ~ In id (map key rows).
Proof.
  induction rows as [| r rows IH]; simpl; [tauto |].
  intros H. apply orb_false_iff in H. destruct H as [Hr Hrest].
  intros [E | Hin].
  - rewrite E, String.eqb_refl in Hr. discriminate.
  - exact (IH Hrest Hin).
Qed.

Lemma keys_snoc {A : Type} (key : A -> string) (rows : list A) (x : A) :
  existsb (fun r => String.eqb (key r) (key x)) rows = false ->
  NoDup (map key rows) ->
  NoDup (map key (rows ++ [x])).
Proof.
  intros Hfree Hnd. rewrite map_app. simpl.
  apply Permutation_NoDup with (l := key x :: map key rows).
  - apply Permutation_cons_append.
  - constructor; [apply existsb_key_false; exact Hfree | exact Hnd].
Qed.

Lemma update_keeps_keys {A : Type} (key : A -> string) (cond : A -> bool)
    (set : A -> A) (rows : list A) :
  (forall r, key (set r) = key r) ->
  map key (map (fun r => if cond r then set r else r) rows) = map key rows.
Proof.
  intros Hid. rewrite map_map. apply map_ext. intros r.
  destruct (cond r); [apply Hid | reflexivity].
Qed.

Lemma find_key_in {A : Type} (key : A -> string) (rows : list A) (id : string)
    (found : A) :
  find (fun r => String.eqb (key r) id) rows = Some found ->
  In found rows /\ key found = id.
Proof.
  intros H. apply find_some in H. destruct H as [Hin He].
  apply String.eqb_eq in He. auto.
Qed.

Lemma find_key_unique {A : Type} (key : A -> string) (rows : list A) (id : string)
    (found r : A) :
  NoDup (map key rows) ->
  find (fun x => String.eqb (key x) id) rows = Some found ->
  In r rows -> key r = id -> r = found.
Proof.
  induction rows as [| x rows IH]; simpl; [tauto |].
  intros Hnd Hfind Hin Hid. inversion Hnd as [| ? ? Hnotin Hnd']; subst.
  destruct (String.eqb_spec (key x) (key r)) as [E | E].
  - inversion Hfind; subst found. destruct Hin as [-> | Hin]; trivial.
    exfalso. apply Hnotin. rewrite E. apply in_map. exact Hin.
  - destruct Hin as [-> | Hin]; [congruence |]. eauto.
Qed.

(** The committed statements keep the primary keys. *)
Lemma committed_keys (d d1 : Db) (c : call) :
  committed d c d1 -> keys_unique d -> keys_unique d1.
Proof.
  intros Hc (Hb & Hl & He & Ha).
  destruct Hc; unfold keys_unique; simpl;
    rewrite ?update_keeps_keys by reflexivity;
    repeat split; trivial.
  - apply (keys_snoc b_budget_id); assumption.
  - apply (keys_snoc l_line_id); assumption.
  - apply (keys_snoc e_expenditure_id); assumption.
Qed.

Lemma logged_keys (d d' : Db) :
  logged d d' -> keys_unique d -> keys_unique d'.
Proof.
  intros (Eb & El & Ee & Ha) (Hb & Hl & He & Hlog).
  unfold keys_unique. rewrite Eb, El, Ee. repeat split; trivial.
  destruct Ha as [-> | (row & Hfree & ->)]; trivial.
  apply (keys_snoc a_log_id); assumption.
Qed.

(** ** Foreign keys *)

Lemma committed_references (d d1 : Db) (c : call) :
  committed d c d1 -> references_hold d -> references_hold d1.
Proof.
  intros Hc [Hl He].
  destruct Hc as [ | ? ? ? ? b id created now Hsel _ _ | | | 
                 | lid ? ? ? ? ? ? line ? ? ? Hsel _ _ | ];
    unfold references_hold; simpl;
    rewrite ?update_keeps_keys by reflexivity.
  - split; [| exact He]. intros l Hin. rewrite map_app. apply in_or_app.
    left. auto.
  - apply find_key_in in Hsel. destruct Hsel as [Hb Hid]. split.
    + intros l Hin. apply in_app_or in Hin. destruct Hin as [Hin | [<- | []]]; auto.
      simpl. rewrite <- Hid. apply in_map. exact Hb.
    + intros e Hin. rewrite map_app. apply in_or_app. left. auto.
  - split; assumption.
  - split; assumption.
  - split; assumption.
  - apply find_key_in in Hsel. destruct Hsel as [Hb Hid]. split.
    + intros l Hin. apply in_map_iff in Hin. destruct Hin as (r & <- & Hin).
      destruct (String.eqb (l_line_id r) lid); simpl; auto.
    + intros e Hin. apply in_app_or in Hin. destruct Hin as [Hin | [<- | []]]; auto.
      simpl. rewrite <- Hid. apply in_map. exact Hb.
  - split; [| exact He].
    intros l Hin. apply in_map_iff in Hin. destruct Hin as (r & <- & Hin).
    destruct (String.eqb (l_line_id r) line_id); simpl; auto.
Qed.

(** ** The spent accumulator and the recorded expenditures *)

Lemma spent_on_snoc (d d1 : Db) (e : Expenditure) (id : string) :
  expenditures d1 = expenditures d ++ [e] ->
  spent_on d1 id ==
  if String.eqb (e_budget_line_id e) id then spent_on d id + e_amount e
  else spent_on d id.
Proof.
  intros E. unfold spent_on. rewrite E, filter_app. simpl.
  generalize (filter (fun x => String.eqb (e_budget_line_id x) id) (expenditures d)).
  intros xs. destruct (String.eqb (e_budget_line_id e) id).
  - induction xs as [| x xs IH]; simpl; [lra | rewrite IH; lra].
  - rewrite app_nil_r. reflexivity.
Qed.

Lemma spent_on_unreferenced (d : Db) (id : string) :
  ~ In id (map e_budget_line_id (expenditures d)) -> spent_on d id = 0.
Proof.
  unfold spent_on. induction (expenditures d) as [| e es IH]; simpl; trivial.
  intros Hnot. destruct (String.eqb_spec (e_budget_line_id e) id) as [E | E].
  - exfalso. apply Hnot. left. exact E.
  - apply IH. tauto.
Qed.

Lemma committed_spent (d d1 : Db) (c : call) :
  committed d c d1 ->
  references_hold d -> spent_is_recorded d -> spent_is_recorded d1.
Proof.
  intros Hc [_ Href] Hs.
  destruct Hc as [ | ? ? ? ? b id created now _ _ Hfree | | | 
                 | lid vendor amount description approved_by date receipt_ref line
                   exp_date id created _ _ _
                 | lid amount ? line _ _ ];
    unfold spent_is_recorded in *; simpl.
  - exact Hs.
  - intros l Hin. apply in_app_or in Hin. destruct Hin as [Hin | [<- | []]].
    + exact (Hs l Hin).
    + simpl. unfold spent_on at 1. simpl.
      change (0 == spent_on d id). rewrite spent_on_unreferenced; [reflexivity |].
      intros Hin. apply in_map_iff in Hin. destruct Hin as (e & He & Hin).
      apply (existsb_key_false l_line_id _ _ Hfree).
      rewrite <- He. apply Href. exact Hin.
  - exact Hs.
  - exact Hs.
  - exact Hs.
  - intros l' Hin. apply in_map_iff in Hin. destruct Hin as (r & <- & Hin).
    specialize (Hs r Hin).
    match goal with
    | |- _ == spent_on ?d1 _ =>
        assert (Hsn : forall k, spent_on d1 k ==
                  if String.eqb lid k then spent_on d k + amount else spent_on d k)
          by (intros k;
              exact (spent_on_snoc d d1
                       (mkExpenditure lid vendor amount description approved_by
                                      exp_date id created receipt_ref (l_category line))
                       k eq_refl))
    end.
    destruct (String.eqb_spec (l_line_id r) lid) as [E | E]; simpl.
    + rewrite Hsn, E, String.eqb_refl, Hs, E. reflexivity.
    + rewrite Hsn.
      destruct (String.eqb_spec lid (l_line_id r)) as [E' | _]; [congruence |].
      exact Hs.
  - intros l' Hin. apply in_map_iff in Hin. destruct Hin as (r & <- & Hin).
    specialize (Hs r Hin).
    destruct (String.eqb (l_line_id r) lid); simpl; exact Hs.
Qed.

(** ** Copied categories *)

Lemma committed_categories (d d1 : Db) (c : call) :
  committed d c d1 ->
  keys_unique d -> references_hold d ->
  categories_copied d -> categories_copied d1.
Proof.
  intros Hc (_ & Hnd & _ & _) [_ Href] Hcat.
  destruct Hc as [ | ? ? ? ? b id created now _ _ Hfree | | | 
                 | lid vendor amount description approved_by date receipt_ref line
                   exp_date id created Hsel _ _
                 | lid amount ? line _ _ ];
    unfold categories_copied in *; simpl.
  - exact Hcat.
  - intros e l He Hl Hid. apply in_app_or in Hl. destruct Hl as [Hl | [<- | []]].
    + exact (Hcat e l He Hl Hid).
    + exfalso. simpl in Hid.
      apply (existsb_key_false l_line_id _ _ Hfree).
      rewrite <- Hid. apply Href. exact He.
  - exact Hcat.
  - exact Hcat.
  - exact Hcat.
  - intros e l' He Hl Hid.
    apply in_map_iff in Hl. destruct Hl as (r & <- & Hl).
    assert (Hr : l_line_id (if String.eqb (l_line_id r) lid
                            then add_spent amount r else r) = l_line_id r
                 /\ l_category (if String.eqb (l_line_id r) lid
                                then add_spent amount r else r) = l_category r)
      by (destruct (String.eqb (l_line_id r) lid); split; reflexivity).
    destruct Hr as [Hr1 Hr2]. rewrite Hr1 in Hid. rewrite Hr2.
    apply in_app_or in He. destruct He as [He | [<- | []]].
    + exact (Hcat e r He Hl Hid).
    + simpl in *. 
      assert (r = line) as -> by (eapply (find_key_unique l_line_id); eauto).
      reflexivity.
  - intros e l' He Hl Hid.
    apply in_map_iff in Hl. destruct Hl as (r & <- & Hl).
    assert (Hr : l_line_id (if String.eqb (l_line_id r) lid
                            then add_committed amount r else r) = l_line_id r
                 /\ l_category (if String.eqb (l_line_id r) lid
                                then add_committed amount r else r) = l_category r)
      by (destruct (String.eqb (l_line_id r) lid); split; reflexivity).
    destruct Hr as [Hr1 Hr2]. rewrite Hr1 in Hid. rewrite Hr2.
    exact (Hcat e r He Hl Hid).
Qed.

(** ** Recorded approvals *)

Lemma committed_approvals (d d1 : Db) (c : call) :
  committed d c d1 ->
  keys_unique d ->
  Forall approval_recorded (budgets d) -> Forall approval_recorded (budgets d1).
Proof.
  intros Hc (Hnd & _ & _ & _) Hall.
  assert (Hupd : forall bid b (set : Budget -> Budget),
             select_budget d bid = Some b ->
             approval_recorded (set b) ->
             Forall approval_recorded
               (map (fun r => if String.eqb (b_budget_id r) bid then set r else r)
                    (budgets d))).
  { intros bid b set Hsel Hset. apply Forall_forall. intros r' Hin.
    apply in_map_iff in Hin. destruct Hin as (r & <- & Hin).
    rewrite Forall_forall in Hall.
    destruct (String.eqb_spec (b_budget_id r) bid) as [E | E]; [| auto].
    assert (r = b) as -> by (eapply (find_key_unique b_budget_id); eauto).
    exact Hset. }
  destruct Hc as [ | bid ? ? ? b id created now Hsel _ _
                 | bid by_ b now Hsel Hst | bid b now Hsel Hst | bid b now Hsel Hst
                 | | ]; simpl; trivial.
  - apply Forall_app. split; trivial. constructor; [| constructor].
    split; simpl; [auto | congruence].
  - apply (Hupd bid b); trivial.
    rewrite Forall_forall in Hall.
    destruct (find_key_in b_budget_id _ _ _ Hsel) as [Hin _].
    specialize (Hall b Hin). destruct Hall as [H1 H2].
    split; simpl; assumption.
  - apply (Hupd bid b); trivial. split; simpl; [discriminate |].
    intros _. split; discriminate.
  - apply (Hupd bid b); trivial.
    rewrite Forall_forall in Hall.
    destruct (find_key_in b_budget_id _ _ _ Hsel) as [Hin _].
    specialize (Hall b Hin). destruct Hall as [_ H2].
    split; simpl; [discriminate |]. intros _. apply H2. rewrite Hst. discriminate.
  - apply (Hupd bid b); trivial.
    rewrite Forall_forall in Hall.
    destruct (find_key_in b_budget_id _ _ _ Hsel) as [Hin _].
    specialize (Hall b Hin). destruct Hall as [_ H2].
    split; simpl; [discriminate |]. intros _. apply H2. rewrite Hst. discriminate.
Qed.

(** ** The invariants along a sequence of calls *)

Lemma exec_ok (c : call) (w : World) :
  store_ok (disk w) -> store_ok (disk (exec c w)).
Proof.
  intros (Hk & Hr & Hs & Hc & Ha).
  destruct (exec_effect c w) as (d1 & [-> | Hm] & Hlog).
  - destruct Hlog as (Eb & El & Ee & Hlog').
    assert (Hlogged : logged (disk w) (disk (exec c w)))
      by (unfold logged; auto).
    split; [eapply logged_keys; eauto |].
    unfold references_hold, spent_is_recorded, categories_copied, spent_on in *.
    rewrite Eb, El, Ee. auto.
  - assert (Hlogged : logged d1 (disk (exec c w))) by exact Hlog.
    destruct Hlog as (Eb & El & Ee & _).
    pose proof (committed_keys _ _ _ Hm Hk) as Hk1.
    pose proof (committed_references _ _ _ Hm Hr) as Hr1.
    pose proof (committed_spent _ _ _ Hm Hr Hs) as Hs1.
    pose proof (committed_categories _ _ _ Hm Hk Hr Hc) as Hc1.
    pose proof (committed_approvals _ _ _ Hm Hk Ha) as Ha1.
    split; [eapply logged_keys; eauto |].
    unfold references_hold, spent_is_recorded, categories_copied, spent_on in *.
    rewrite Eb, El, Ee. auto.
Qed.

Lemma run_ok (cs : list call) (w : World) :
  store_ok (disk w) -> store_ok (disk (run cs w)).
Proof.
  revert w. induction cs as [| c cs IH]; intros w Hok; simpl; trivial.
  apply IH. apply exec_ok. exact Hok.
Qed.

Lemma new_store_ok : store_ok empty_db.
Proof.
  unfold store_ok, keys_unique, references_hold, spent_is_recorded,
         categories_copied; simpl.
  repeat split; try constructor; try tauto.
Qed.


(** X3. Along any sequence of calls on a new store, every budget line
    belongs to a stored budget and every expenditure to a stored line. *)
Theorem foreign_keys_hold :
  forall (uuids clock : nat -> string) (cs : list call),
    references_hold (disk (run cs (new_world uuids clock))).
Proof.
  intros uuids clock cs.
  apply (run_ok cs (new_world uuids clock) new_store_ok).
Qed.

(** X4. Along any sequence of calls on a new store, the [spent] field of
    every line is the sum of the amounts of the expenditures recorded
    against that line. *)
Theorem spent_is_sum_of_expenditures :
  forall (uuids clock : nat -> string) (cs : list call),
    spent_is_recorded (disk (run cs (new_world uuids clock))).
Proof.
  intros uuids clock cs.
  apply (run_ok cs (new_world uuids clock) new_store_ok).
Qed.

(** X5. Along any sequence of calls on a new store, every expenditure
    carries the category of the line it was recorded against. *)
Theorem expenditure_category_is_line_category :
  forall (uuids clock : nat -> string) (cs : list call),
    categories_copied (disk (run cs (new_world uuids clock))).
Proof.
  intros uuids clock cs.
  apply (run_ok cs (new_world uuids clock) new_store_ok).
Qed.

(** X6. Along any sequence of calls on a new store, a budget has an
    approver and an approval time exactly when its status is not draft. *)
Theorem approval_recorded_unless_draft :
  forall (uuids clock : nat -> string) (cs : list call),
    Forall approval_recorded (budgets (disk (run cs (new_world uuids clock)))).
Proof.
  intros uuids clock cs.
  apply (run_ok cs (new_world uuids clock) new_store_ok).
Qed.

(** ** Rows over time *)

Lemma Forall2_map_self {A : Type} (R : A -> A -> Prop) (f : A -> A) (rows : list A) :
  (forall r, In r rows -> R r (f r)) -> Forall2 R rows (map f rows).
Proof.
  induction rows as [| r rows IH]; simpl; intros H; constructor; auto.
Qed.

Lemma Forall2_transitive {A : Type} (R : A -> A -> Prop) (xs ys zs : list A) :
  (forall x y z, R x y -> R y z -> R x z) ->
  Forall2 R xs ys -> Forall2 R ys zs -> Forall2 R xs zs.
Proof.
  intros Ht H1. revert zs. induction H1 as [| x y xs ys Hxy _ IH]; intros zs H2.
  - inversion H2. constructor.
  - inversion H2; subst. constructor; eauto.
Qed.

Lemma table_evolves_refl {A : Type} (R : A -> A -> Prop) (rows : list A) :
  (forall x, R x x) -> table_evolves R rows rows.
Proof.
  intros Hr. exists rows, []. split; [rewrite app_nil_r; reflexivity |].
  pose proof (Forall2_map_self R (fun x => x) rows (fun r _ => Hr r)) as H.
  rewrite map_id in H. exact H.
Qed.

Lemma table_evolves_trans {A : Type} (R : A -> A -> Prop) (xs ys zs : list A) :
  (forall x y z, R x y -> R y z -> R x z) ->
  table_evolves R xs ys -> table_evolves R ys zs -> table_evolves R xs zs.
Proof.
  intros Ht (old1 & new1 & -> & H1) (old2 & new2 & -> & H2).
  apply Forall2_app_inv_l in H2. destruct H2 as (o2a & o2b & Ha & Hb & ->).
  exists o2a, (o2b ++ new2). split; [rewrite app_assoc; reflexivity |].
  eapply Forall2_transitive; eauto.
Qed.

Lemma table_evolves_update {A : Type} (R : A -> A -> Prop) (f : A -> A)
    (rows new : list A) :
  (forall r, In r rows -> R r (f r)) ->
  table_evolves R rows (map f rows ++ new).
Proof.
  intros H. exists (map f rows), new. split; trivial.
  apply Forall2_map_self. exact H.
Qed.

Lemma budget_evolves_refl (b : Budget) : budget_evolves b b.
Proof.
  unfold budget_evolves.
  repeat match goal with |- _ /\ _ => split end; auto.
Qed.

Lemma budget_evolves_trans (a b c : Budget) :
  budget_evolves a b -> budget_evolves b c -> budget_evolves a c.
Proof.
  unfold budget_evolves.
  intros (A1 & A2 & A3 & A4 & A5 & A6 & A7 & A8 & A9)
         (B1 & B2 & B3 & B4 & B5 & B6 & B7 & B8 & B9).
  repeat match goal with |- _ /\ _ => split end; try congruence; try lia.
  intros Hd. destruct (A9 Hd) as [H1 H1'].
  assert (Hb : b_status b <> DRAFT).
  { intros E. rewrite E in A8. destruct (b_status a); simpl in A8; try lia.
    congruence. }
  destruct (B9 Hb) as [H2 H2']. split; congruence.
Qed.

Lemma line_evolves_refl (l : BudgetLine) : line_evolves l l.
Proof. unfold line_evolves. repeat split. Qed.

Lemma line_evolves_trans (a b c : BudgetLine) :
  line_evolves a b -> line_evolves b c -> line_evolves a c.
Proof.
  unfold line_evolves.
  intros (A1 & A2 & A3 & A4 & A5 & A6) (B1 & B2 & B3 & B4 & B5 & B6).
  repeat split; congruence.
Qed.

Lemma committed_budgets_evolve (d d1 : Db) (c : call) :
  committed d c d1 -> keys_unique d ->
  table_evolves budget_evolves (budgets d) (budgets d1).
Proof.
  intros Hc (Hnd & _ & _ & _).
  assert (Hupd : forall bid b (set : Budget -> Budget),
             select_budget d bid = Some b ->
             budget_evolves b (set b) ->
             table_evolves budget_evolves (budgets d)
               (map (fun r => if String.eqb (b_budget_id r) bid then set r else r)
                    (budgets d))).
  { intros bid b set Hsel Hset.
    rewrite <- (app_nil_r (map _ (budgets d))).
    apply table_evolves_update. intros r Hin.
    destruct (String.eqb_spec (b_budget_id r) bid) as [E | E];
      [| apply budget_evolves_refl].
    assert (r = b) as -> by (eapply (find_key_unique b_budget_id); eauto).
    exact Hset. }
  destruct Hc as [ | bid ? ? ? b id created now Hsel _ _
                 | bid by_ b now Hsel Hst | bid b now Hsel Hst | bid b now Hsel Hst
                 | | ]; simpl.
  - exists (budgets d). eexists. split; [reflexivity |].
    pose proof (Forall2_map_self budget_evolves (fun x => x) (budgets d)
                  (fun r _ => budget_evolves_refl r)) as Hrefl.
    rewrite map_id in Hrefl. exact Hrefl.
  - apply (Hupd bid b); trivial. unfold budget_evolves. simpl.
    repeat match goal with |- _ /\ _ => split end; auto.
  - apply (Hupd bid b); trivial. unfold budget_evolves. simpl.
    rewrite Hst. simpl.
    repeat match goal with |- _ /\ _ => split end; auto; congruence.
  - apply (Hupd bid b); trivial. unfold budget_evolves. simpl.
    rewrite Hst. simpl.
    repeat match goal with |- _ /\ _ => split end; auto.
  - apply (Hupd bid b); trivial. unfold budget_evolves. simpl.
    rewrite Hst. simpl.
    repeat match goal with |- _ /\ _ => split end; auto.
  - apply table_evolves_refl. apply budget_evolves_refl.
  - apply table_evolves_refl. apply budget_evolves_refl.
Qed.

Lemma committed_lines_evolve (d d1 : Db) (c : call) :
  committed d c d1 ->
  table_evolves line_evolves (budget_lines d) (budget_lines d1).
Proof.
  intros Hc.
  destruct Hc; simpl; try (apply table_evolves_refl; apply line_evolves_refl).
  - exists (budget_lines d). eexists. split; [reflexivity |].
    pose proof (Forall2_map_self line_evolves (fun x => x) (budget_lines d)
                  (fun r _ => line_evolves_refl r)) as Hrefl.
    rewrite map_id in Hrefl. exact Hrefl.
  - rewrite <- (app_nil_r (map _ (budget_lines d))).
    apply table_evolves_update. intros r _.
    destruct (String.eqb (l_line_id r) line_id);
      unfold line_evolves; simpl; repeat split.
  - rewrite <- (app_nil_r (map _ (budget_lines d))).
    apply table_evolves_update. intros r _.
    destruct (String.eqb (l_line_id r) line_id);
      unfold line_evolves; simpl; repeat split.
Qed.

Lemma committed_appends (d d1 : Db) (c : call) :
  committed d c d1 ->
  audit_log d1 = audit_log d /\
  exists new, expenditures d1 = expenditures d ++ new /\ (List.length new <= 1)%nat.
Proof.
  intros Hc. destruct Hc; simpl; split; trivial;
    try (exists []; rewrite app_nil_r; split; [reflexivity | simpl; lia]).
  eexists. split; [reflexivity | simpl; lia].
Qed.

Lemma value_error_changes_nothing_witness :
  exec (RecordExpenditure "C" "Law Firm" 15000 "Legal fees" "CFO" None None) legal_world
  = legal_world.
Proof.
  apply (value_error_changes_nothing
           (RecordExpenditure "C" "Law Firm" 15000 "Legal fees" "CFO" None None)
           legal_world InsufficientFunds).
  reflexivity.
Defined.

Lemma exec_keys (c : call) (w : World) :
  keys_unique (disk w) -> keys_unique (disk (exec c w)).
Proof.
  intros Hk. destruct (exec_effect c w) as (d1 & [-> | Hm] & Hlog).
  - eapply logged_keys; eauto.
  - eapply logged_keys; [exact Hlog |]. eapply committed_keys; eauto.
Qed.

Lemma exec_budgets_evolve (c : call) (w : World) :
  keys_unique (disk w) ->
  table_evolves budget_evolves (budgets (disk w)) (budgets (disk (exec c w))).
Proof.
  intros Hk. destruct (exec_effect c w) as (d1 & [-> | Hm] & (Eb & _)); rewrite Eb.
  - apply table_evolves_refl. apply budget_evolves_refl.
  - eapply committed_budgets_evolve; eauto.
Qed.

Lemma exec_lines_evolve (c : call) (w : World) :
  table_evolves line_evolves (budget_lines (disk w)) (budget_lines (disk (exec c w))).
Proof.
  destruct (exec_effect c w) as (d1 & [-> | Hm] & (_ & El & _)); rewrite El.
  - apply table_evolves_refl. apply line_evolves_refl.
  - eapply committed_lines_evolve; eauto.
Qed.

Lemma exec_appends (c : call) (w : World) :
  exists exps rows,
    expenditures (disk (exec c w)) = expenditures (disk w) ++ exps /\
    audit_log (disk (exec c w)) = audit_log (disk w) ++ rows /\
    (List.length exps <= 1)%nat /\ (List.length rows <= 1)%nat.
Proof.
  destruct (exec_effect c w) as (d1 & Hm & (_ & _ & Ee & Ha)).
  assert (Hd1 : audit_log d1 = audit_log (disk w) /\
                exists new, expenditures d1 = expenditures (disk w) ++ new
                            /\ (List.length new <= 1)%nat).
  { destruct Hm as [-> | Hm]; [| eapply committed_appends; eauto].
    split; trivial. exists []. rewrite app_nil_r. split; [reflexivity | simpl; lia]. }
  destruct Hd1 as (Ea & new & En & Hlen).
  exists new. rewrite Ee, En.
  destruct Ha as [-> | (row & _ & ->)]; rewrite Ea.
  - exists []. rewrite app_nil_r. repeat split; trivial. simpl. lia.
  - exists [row]. repeat split; trivial.
Qed.

(** X7. Budgets only advance.  From a store whose budget identifiers are
    unique, any sequence of calls leaves every budget in place, with the
    title, fiscal year, total amount, department, creation time and notes
    it was created with, a status that has not gone back (draft, approved,
    active, closed), and the approver and approval time it had if it was
    already approved; new budgets come after the old ones. *)
Theorem budgets_only_advance :
  forall (w : World) (cs : list call),
    keys_unique (disk w) ->
    table_evolves budget_evolves (budgets (disk w)) (budgets (disk (run cs w))).
Proof.
  intros w cs. revert w. induction cs as [| c cs IH]; intros w Hk; simpl.
  - apply table_evolves_refl. apply budget_evolves_refl.
  - eapply table_evolves_trans;
      [exact budget_evolves_trans | apply exec_budgets_evolve; exact Hk |].
    apply IH. apply exec_keys. exact Hk.
Qed.

Lemma budgets_only_advance_witness :
  table_evolves budget_evolves (budgets (disk draft_world))
                (budgets (disk (run life_calls draft_world))).
Proof.
  apply (budgets_only_advance draft_world life_calls).
  vm_compute.
  repeat split; repeat (constructor; [intros [] |]); constructor.
Defined.

(** X8. Lines keep their identity.  Any sequence of calls leaves every
    budget line in place with the identifier, budget, category,
    subcategory, allocation and creation time it was added with: only
    [spent] and [committed] can change, no line is removed, and new lines
    come after the old ones. *)
Theorem lines_keep_their_allocation :
  forall (w : World) (cs : list call),
    table_evolves line_evolves (budget_lines (disk w))
                  (budget_lines (disk (run cs w))).
Proof.
  intros w cs. revert w. induction cs as [| c cs IH]; intros w; simpl.
  - apply table_evolves_refl. apply line_evolves_refl.
  - eapply table_evolves_trans;
      [exact line_evolves_trans | apply exec_lines_evolve | apply IH].
Qed.

(** X9. Expenditures and audit rows are append-only.  Any sequence of
    calls leaves the expenditures it found and the audit rows it found
    unchanged and in place, and adds at most one expenditure and at most
    one audit row per call. *)
Theorem expenditures_and_audit_append_only :
  forall (w : World) (cs : list call),
    exists exps rows,
      expenditures (disk (run cs w)) = expenditures (disk w) ++ exps /\
      audit_log (disk (run cs w)) = audit_log (disk w) ++ rows /\
      (List.length exps <= List.length cs)%nat /\
      (List.length rows <= List.length cs)%nat.
Proof.
  intros w cs. revert w. induction cs as [| c cs IH]; intros w; simpl.
  - exists [], []. rewrite !app_nil_r. repeat split; simpl; lia.
  - destruct (exec_appends c w) as (e1 & r1 & He1 & Hr1 & Hl1 & Hl2).
    destruct (IH (exec c w)) as (e2 & r2 & He2 & Hr2 & Hl3 & Hl4).
    exists (e1 ++ e2), (r1 ++ r2).
    rewrite He2, Hr2, He1, Hr1, <- !app_assoc, !length_app.
    repeat split; lia.
Qed.

(** X10. A call that returns has written exactly one audit row, after the
    rows that were there: the row carries the action tag of the call, the
    actor "system", the budget the call is about (for an expenditure or a
    commitment, the budget of the line), and an identifier no earlier row
    has. *)
Theorem returning_call_logs_one_row :
  forall (c : call) (w : World),
    outcome c w = None ->
    exists row,
      audit_log (disk (exec c w)) = audit_log (disk w) ++ [row] /\
      a_action row = action_of c /\
      a_user_id row = "system" /\
      a_budget_id row = subject_of c w /\
      ~ In (a_log_id row) (map a_log_id (audit_log (disk w))).
Proof.
  intros c w Hout.
  destruct (exec_returned c w Hout) as (d1 & row & _ & Hfree & Ha & Hu & Hb & Hd).
  exists row. rewrite Hd. simpl. repeat split; trivial.
  apply (existsb_key_false a_log_id). exact Hfree.
Qed.

Lemma returning_call_logs_one_row_witness :
  exists row,
    audit_log (disk (exec (CommitFunds "C" 6000 "Retainer") legal_world))
      = audit_log (disk legal_world) ++ [row] /\
    a_action row = "COMMIT_FUNDS" /\
    a_user_id row = "system" /\
    a_budget_id row = "A" /\
    ~ In (a_log_id row) (map a_log_id (audit_log (disk legal_world))).
Proof.
  apply (returning_call_logs_one_row (CommitFunds "C" 6000 "Retainer") legal_world).
  reflexivity.
Defined.

(** ** Spending and committing *)

Lemma Forall2_same {A : Type} (R : A -> A -> Prop) (rows : list A) :
  (forall r, R r r) -> Forall2 R rows rows.
Proof.
  intros H. induction rows; constructor; auto.
Qed.

(** X11. The two accumulators are separate.  [record_expenditure] never
    changes the [committed] field of any line, and [commit_funds] never
    changes the [spent] field of any line nor the table of expenditures;
    neither touches the table of budgets.  This holds whatever the call
    returns or raises. *)
Theorem spent_and_committed_are_separate :
  forall (w : World),
    (forall line_id vendor amount description approved_by date receipt_ref,
       let w' := exec (RecordExpenditure line_id vendor amount description
                                         approved_by date receipt_ref) w in
       Forall2 (fun l l' => l_committed l' = l_committed l)
               (budget_lines (disk w)) (budget_lines (disk w')) /\
       budgets (disk w') = budgets (disk w)) /\
    (forall line_id amount description,
       let w' := exec (CommitFunds line_id amount description) w in
       Forall2 (fun l l' => l_spent l' = l_spent l)
               (budget_lines (disk w)) (budget_lines (disk w')) /\
       expenditures (disk w') = expenditures (disk w) /\
       budgets (disk w') = budgets (disk w)).
Proof.
  intros w. split.
  - intros line_id vendor amount description approved_by date receipt_ref w'.
    subst w'.
    destruct (exec_effect (RecordExpenditure line_id vendor amount description
                                             approved_by date receipt_ref) w)
      as (d1 & Hm & (Eb & El & _)).
    rewrite Eb, El. destruct Hm as [-> | Hm].
    + split; [apply Forall2_same; reflexivity | reflexivity].
    + inversion Hm; subst; simpl. split; [| reflexivity].
      apply Forall2_map_self. intros r _.
      destruct (String.eqb (l_line_id r) line_id); reflexivity.
  - intros line_id amount description w'. subst w'.
    destruct (exec_effect (CommitFunds line_id amount description) w)
      as (d1 & Hm & (Eb & El & Ee & _)).
    rewrite Eb, El, Ee. destruct Hm as [-> | Hm].
    + split; [apply Forall2_same; reflexivity | split; reflexivity].
    + inversion Hm; subst; simpl. split; [| split; reflexivity].
      apply Forall2_map_self. intros r _.
      destruct (String.eqb (l_line_id r) line_id); reflexivity.
Qed.

Ltac two_logs :=
  match goal with
  | |- context [_log ?b ?a ?d ?w1] =>
      match goal with
      | |- context [_log b a d ?w2] =>
          lazymatch w2 with
          | w1 => fail
          | _ =>
              let E1 := fresh "E1" in
              let E2 := fresh "E2" in
              destruct (log_cases b a d w1) as [[? E1] | [? E1]];
              destruct (log_cases b a d w2) as [[? E2] | [? E2]];
              simpl in *; rewrite E1, E2; simpl; try congruence
          end
      end
  end.

(** X12. Spending and committing do not look at the budget.  Whatever the
    table of budgets holds (so whatever the status of the budget, closed
    included), [record_expenditure] and [commit_funds] return or raise the
    same thing and make the same changes to lines, expenditures and audit
    log; the table of budgets is left as it is. *)
Theorem spending_ignores_budget_status :
  forall (w : World) (bs : list Budget),
    (forall line_id vendor amount description approved_by date receipt_ref,
       let run1 := record_expenditure line_id vendor amount description approved_by
                                      date receipt_ref w in
       let run2 := record_expenditure line_id vendor amount description approved_by
                                      date receipt_ref (with_budgets bs w) in
       fst run2 = fst run1 /\
       budgets (disk (snd run2)) = bs /\
       budget_lines (disk (snd run2)) = budget_lines (disk (snd run1)) /\
       expenditures (disk (snd run2)) = expenditures (disk (snd run1)) /\
       audit_log (disk (snd run2)) = audit_log (disk (snd run1))) /\
    (forall line_id amount description,
       let run1 := commit_funds line_id amount description w in
       let run2 := commit_funds line_id amount description (with_budgets bs w) in
       fst run2 = fst run1 /\
       budgets (disk (snd run2)) = bs /\
       budget_lines (disk (snd run2)) = budget_lines (disk (snd run1)) /\
       expenditures (disk (snd run2)) = expenditures (disk (snd run1)) /\
       audit_log (disk (snd run2)) = audit_log (disk (snd run1))).
Proof.
  intros w bs. split.
  - intros line_id vendor amount description approved_by date receipt_ref run1 run2.
    subst run1 run2.
    unfold record_expenditure, insert_expenditure, with_budgets, select_line.
    unfold_m.
    destruct (find _ (budget_lines (disk w))) as [line |]; simpl; [| auto].
    destruct (Qgtb amount _); simpl; [auto |].
    destruct date as [[| ch s] |]; unfold date_or_today; unfold_m;
      (destruct (existsb _ (expenditures (disk w))); simpl; [auto |]);
      two_logs; auto.
  - intros line_id amount description run1 run2. subst run1 run2.
    unfold commit_funds, with_budgets, select_line. unfold_m.
    destruct (find _ (budget_lines (disk w))) as [line |]; simpl; [| auto].
    destruct (Qgtb amount _); simpl; [auto |].
    two_logs; auto.
Qed.

(** A closed budget still takes expenditures and commitments. *)
Example closed_budget_still_spends :
  let w := run [AddBudgetLine "A" "Legal" "Contracts" 10000;
                ApproveBudget "A" "Director"; ActivateBudget "A";
                CloseBudget "A"] draft_world in
  map b_status (budgets (disk w)) = [CLOSED] /\
  outcome (RecordExpenditure "C" "Law Firm" 4000 "Legal fees" "CFO" None None) w = None /\
  outcome (CommitFunds "C" 6000 "Retainer") w = None.
Proof. vm_compute. repeat split. Qed.

(** ** Approval *)

Lemma returned_outcome_approve (w w' : World) (budget_id approved_by : string) (r : bool) :
  approve_budget budget_id approved_by w = (Ok r, w') ->
  outcome (ApproveBudget budget_id approved_by) w = None /\
  exec (ApproveBudget budget_id approved_by) w = w'.
Proof. intros H. simpl. rewrite H. auto. Qed.

(** X13. When [approve_budget] returns, the budget was a draft and the
    call did this and no more: on the budget, status approved, the given
    approver, and one time stamp for both the approval and [updated_at];
    every other field, every other budget, every line and every
    expenditure unchanged. *)
Theorem approve_budget_frame :
  forall (w w' : World) (budget_id approved_by : string) (b : Budget) (r : bool),
    select_budget (disk w) budget_id = Some b ->
    approve_budget budget_id approved_by w = (Ok r, w') ->
    b_status b = DRAFT /\
    only_approval_changed budget_id approved_by (disk w) (disk w').
Proof.
  intros w w' budget_id approved_by b r Hsel Hok.
  destruct (returned_outcome_approve _ _ _ _ _ Hok) as [Hout Hex].
  destruct (exec_returned _ _ Hout) as (d1 & row & Hm & _ & _ & _ & _ & Hd).
  rewrite Hex in Hd. rewrite Hd. clear Hd.
  inversion Hm as [ | | ? ? b0 now Hsel0 Hst | | | | ]; subst.
  rewrite Hsel in Hsel0. inversion Hsel0; subst b0.
  split; [exact Hst |].
  exists now. simpl. split; [| split; reflexivity].
  apply Forall2_map_self. intros x _.
  destruct (String.eqb_spec (b_budget_id x) budget_id) as [E | E]; split; intros H;
    try reflexivity; contradiction.
Qed.

Lemma approve_budget_frame_witness :
  b_status draft_budget = DRAFT /\
  only_approval_changed "A" "Director" (disk draft_world) (disk approved_world).
Proof.
  apply (approve_budget_frame draft_world approved_world "A" "Director"
           draft_budget true eq_refl).
  vm_compute. reflexivity.
Defined.

(** ** Creation *)

(** X14. What creation leaves alone.  When [create_budget] returns a
    budget, that budget is the new last row of the table of budgets, a
    draft without approver, with the fields given; the earlier budgets,
    the lines and the expenditures are unchanged.  When [add_budget_line]
    returns a line, that line is the new last row of the table of lines,
    with the allocation given and nothing spent or committed; the earlier
    lines and the expenditures are unchanged, and in the table of budgets
    only the [updated_at] of the budget changed. *)
Theorem creation_frame :
  forall (w w' : World),
    (forall title fiscal_year total_amount department notes b,
       create_budget title fiscal_year total_amount department notes w = (Ok b, w') ->
       b = mkBudget title fiscal_year total_amount department DRAFT
                    (next_uuid w 0) (next_clock w 0) (next_clock w 1)
                    None None notes /\
       budgets (disk w') = budgets (disk w) ++ [b] /\
       budget_lines (disk w') = budget_lines (disk w) /\
       expenditures (disk w') = expenditures (disk w)) /\
    (forall budget_id category subcategory allocated line,
       add_budget_line budget_id category subcategory allocated w = (Ok line, w') ->
       line = mkBudgetLine budget_id category subcategory allocated 0 0
                           (next_uuid w 0) (next_clock w 0) /\
       budget_lines (disk w') = budget_lines (disk w) ++ [line] /\
       expenditures (disk w') = expenditures (disk w) /\
       only_updated_at_changed budget_id (disk w) (disk w')).
Proof.
  intros w w'. unfold next_uuid, next_clock. rewrite !Nat.add_0_r, !Nat.add_1_r.
  split.
  - intros title fiscal_year total_amount department notes b.
    unfold create_budget, insert_budget. unfold_m.
    destruct (existsb _ (budgets (disk w))); simpl; [discriminate |].
    match goal with
    | |- context [_log ?bi ?a ?d ?w1] =>
        destruct (log_cases bi a d w1) as [[_ E] | [_ E]]; rewrite E; simpl
    end; intros H; inversion H; subst. simpl. auto.
  - intros budget_id category subcategory allocated line.
    unfold add_budget_line, insert_line. unfold_m.
    destruct (select_budget (disk w) budget_id) as [row |]; simpl; [| discriminate].
    destruct (negb _); simpl; [discriminate |].
    destruct (existsb _ (budget_lines (disk w))); simpl; [discriminate |].
    match goal with
    | |- context [_log ?bi ?a ?d ?w1] =>
        destruct (log_cases bi a d w1) as [[_ E] | [_ E]]; rewrite E; simpl
    end; intros H; inversion H; subst. simpl.
    repeat split; trivial.
    exists (clock_src w (S (clock_pos w))). simpl.
    apply Forall2_map_self. intros x _.
    destruct (String.eqb_spec (b_budget_id x) budget_id) as [Eq | Eq]; split; intros Hx;
      try reflexivity; contradiction.
Qed.

Lemma creation_frame_witness :
  mkBudgetLine "A" "Legal" "Contracts" 10000 0 0 "C" "2025-01-01T00:00:03"
    = mkBudgetLine "A" "Legal" "Contracts" 10000 0 0
                   (next_uuid draft_world 0) (next_clock draft_world 0) /\
  budget_lines (disk legal_world)
    = budget_lines (disk draft_world)
      ++ [mkBudgetLine "A" "Legal" "Contracts" 10000 0 0 "C" "2025-01-01T00:00:03"] /\
  expenditures (disk legal_world) = expenditures (disk draft_world) /\
  only_updated_at_changed "A" (disk draft_world) (disk legal_world).
Proof.
  apply (proj2 (creation_frame draft_world legal_world) "A" "Legal" "Contracts" 10000).
  vm_compute. reflexivity.
Defined.

(** ** Accepted expenditures and commitments *)





(** ** Sorting *)

Lemma insert_sorted_permutation {A : Type} (leb : A -> A -> bool) (x : A)
    (rows : list A) :
  Permutation (insert_sorted leb x rows) (x :: rows).
Proof.
  induction rows as [| y rows IH]; simpl.
  - reflexivity.
  - destruct (leb x y).
    + reflexivity.
    + rewrite IH. apply perm_swap.
Qed.

Lemma sort_by_permutation {A : Type} (leb : A -> A -> bool) (rows : list A) :
  Permutation (sort_by leb rows) rows.
Proof.
  unfold sort_by. induction rows as [| x rows IH]; simpl.
  - reflexivity.
  - rewrite insert_sorted_permutation. constructor. exact IH.
Qed.

Lemma insert_sorted_sorted {A : Type} (leb : A -> A -> bool) (x : A) (rows : list A) :
  (forall a b, leb a b = false -> leb b a = true) ->
  Sorted (fun a b => leb a b = true) rows ->
  Sorted (fun a b => leb a b = true) (insert_sorted leb x rows).
Proof.
  intros Htot Hs. induction Hs as [| y rows Hs IH Hhd]; simpl.
  - repeat constructor.
  - destruct (leb x y) eqn:E.
    + constructor; [constructor; assumption | constructor; exact E].
    + constructor; [exact IH |].
      destruct rows as [| z rows]; simpl.
      * constructor. apply Htot. exact E.
      * destruct (leb x z); constructor.
        -- apply Htot. exact E.
        -- inversion Hhd. assumption.
Qed.

Lemma sort_by_sorted {A : Type} (leb : A -> A -> bool) (rows : list A) :
  (forall a b, leb a b = false -> leb b a = true) ->
  Sorted (fun a b => leb a b = true) (sort_by leb rows).
Proof.
  intros Htot. unfold sort_by. induction rows as [| x rows IH]; simpl.
  - constructor.
  - apply insert_sorted_sorted; assumption.
Qed.

Lemma sort_by_nil {A : Type} (leb : A -> A -> bool) (rows : list A) :
  sort_by leb rows = [] -> rows = [].
Proof.
  intros H. pose proof (sort_by_permutation leb rows) as Hp.
  rewrite H in Hp. apply Permutation_nil in Hp. exact Hp.
Qed.

Lemma string_leb_total (a b : string) : String.leb a b = false -> String.leb b a = true.
Proof.
  intros H. destruct (String.leb_total a b) as [H1 | H1]; congruence.
Qed.

Lemma order_by_is_sort_by (rows : list BudgetLine) :
  order_by rows = sort_by line_leb rows.
Proof.
  unfold order_by, sort_by. induction rows as [| x rows IH]; simpl; trivial.
  rewrite IH. generalize (fold_right (insert_sorted line_leb) [] rows).
  intros l. induction l as [| y l IHl]; simpl; trivial.
  destruct (line_leb x y); congruence.
Qed.

Lemma line_leb_total (a b : BudgetLine) : line_leb a b = false -> line_leb b a = true.
Proof.
  unfold line_leb. rewrite (String.compare_antisym (l_category b) (l_category a)).
  destruct (String.compare (l_category a) (l_category b)); simpl;
    try discriminate; trivial.
  apply string_leb_total.
Qed.

Lemma line_leb_report_order (a b : BudgetLine) :
  line_leb a b = true -> in_report_order (line_variance a) (line_variance b).
Proof.
  unfold line_leb, in_report_order, line_variance, String.ltb. simpl.
  destruct (String.compare (l_category a) (l_category b)) eqn:E; intros H.
  - right. split; [apply String.compare_eq_iff; exact E | exact H].
  - left. reflexivity.
  - discriminate.
Qed.

Lemma Sorted_map {A B : Type} (R : A -> A -> Prop) (S : B -> B -> Prop) (f : A -> B)
    (rows : list A) :
  (forall a b, R a b -> S (f a) (f b)) ->
  Sorted R rows -> Sorted S (map f rows).
Proof.
  intros H Hs. induction Hs as [| x rows Hs IH Hhd]; simpl; constructor; trivial.
  destruct Hhd; simpl; constructor. auto.
Qed.

(** X17. The lines of a variance report are the lines of the budget, one
    report line for each, sorted by category and then by subcategory. *)
Theorem variance_lines_in_order :
  forall (w w' : World) (budget_id : string) (r : VarianceReport),
    get_variance budget_id w = (Ok r, w') ->
    Permutation (map lv_line_id (v_lines r))
                (map l_line_id (lines_of (disk w) budget_id)) /\
    Sorted in_report_order (v_lines r) /\
    (forall lv, In lv (v_lines r) <->
       exists l, In l (budget_lines (disk w)) /\ l_budget_id l = budget_id /\
                 lv = line_variance l).
Proof.
  intros w w' budget_id r Hget.
  destruct (select_budget (disk w) budget_id) as [b |] eqn:Hsel.
  2:{ rewrite (get_variance_not_found _ _ Hsel) in Hget. discriminate. }
  rewrite (get_variance_found _ _ _ Hsel) in Hget.
  inversion Hget; subst r w'; clear Hget. cbn [v_lines]. split; [| split].
  - rewrite map_map. cbn [line_variance lv_line_id].
    apply Permutation_map. apply order_by_permutation.
  - unfold select_lines. rewrite order_by_is_sort_by.
    apply Sorted_map with (R := fun a b => line_leb a b = true).
    + exact line_leb_report_order.
    + apply sort_by_sorted. exact line_leb_total.
  - intros lv. rewrite in_map_iff. split.
    + intros (l & <- & Hin). apply select_lines_in in Hin.
      exists l. tauto.
    + intros (l & Hin & Hb & ->). exists l. split; trivial.
      apply select_lines_in. auto.
Qed.

Lemma variance_lines_in_order_witness :
  Permutation (map lv_line_id (v_lines cloud_report))
              (map l_line_id (lines_of (disk cloud_world) "A")) /\
  Sorted in_report_order (v_lines cloud_report) /\
  (forall lv, In lv (v_lines cloud_report) <->
     exists l, In l (budget_lines (disk cloud_world)) /\ l_budget_id l = "A" /\
               lv = line_variance l).
Proof.
  apply (variance_lines_in_order cloud_world cloud_world "A" cloud_report).
  vm_compute. reflexivity.
Defined.

(** ** Missing identifiers *)

(** X18. An identifier that is not in the store is reported, and nothing
    is done.  For a budget identifier without a row, [approve_budget],
    [activate_budget], [close_budget], [get_variance], [compliance_check]
    and [executive_summary] raise the not found error; for a line
    identifier without a row, [record_expenditure] and [commit_funds] do.
    In each case the world is returned as it was. *)
Theorem missing_ids_are_not_found :
  forall (w : World),
    (forall budget_id approved_by,
       select_budget (disk w) budget_id = None ->
       approve_budget budget_id approved_by w = (Raise (ValueError NotFound), w) /\
       activate_budget budget_id w = (Raise (ValueError NotFound), w) /\
       close_budget budget_id w = (Raise (ValueError NotFound), w) /\
       get_variance budget_id w = (Raise (ValueError NotFound), w) /\
       compliance_check budget_id w = (Raise (ValueError NotFound), w) /\
       executive_summary budget_id w = (Raise (ValueError NotFound), w)) /\
    (forall line_id vendor amount description approved_by date receipt_ref,
       select_line (disk w) line_id = None ->
       record_expenditure line_id vendor amount description approved_by date
                          receipt_ref w = (Raise (ValueError NotFound), w) /\
       commit_funds line_id amount description w = (Raise (ValueError NotFound), w)).
Proof.
  intros w. split.
  - intros budget_id approved_by Hsel.
    pose proof (get_variance_not_found w budget_id Hsel) as Hv.
    split; [| split; [| split; [| split; [| split]]]].
    + unfold approve_budget. unfold_m. rewrite Hsel. reflexivity.
    + unfold activate_budget. unfold_m. rewrite Hsel. reflexivity.
    + unfold close_budget. unfold_m. rewrite Hsel. reflexivity.
    + exact Hv.
    + unfold compliance_check, bind. rewrite Hv. reflexivity.
    + unfold executive_summary, bind. rewrite Hv. reflexivity.
  - intros line_id vendor amount description approved_by date receipt_ref Hsel.
    unfold record_expenditure, commit_funds. unfold_m. rewrite Hsel. auto.
Qed.

Lemma missing_ids_are_not_found_witness :
  (approve_budget "Z" "Director" draft_world = (Raise (ValueError NotFound), draft_world) /\
   activate_budget "Z" draft_world = (Raise (ValueError NotFound), draft_world) /\
   close_budget "Z" draft_world = (Raise (ValueError NotFound), draft_world) /\
   get_variance "Z" draft_world = (Raise (ValueError NotFound), draft_world) /\
   compliance_check "Z" draft_world = (Raise (ValueError NotFound), draft_world) /\
   executive_summary "Z" draft_world = (Raise (ValueError NotFound), draft_world)) /\
  (record_expenditure "Z" "Law Firm" 1 "Legal fees" "CFO" None None draft_world
     = (Raise (ValueError NotFound), draft_world) /\
   commit_funds "Z" 1 "Retainer" draft_world
     = (Raise (ValueError NotFound), draft_world)).
Proof.
  split.
  - apply (proj1 (missing_ids_are_not_found draft_world) "Z" "Director"). reflexivity.
  - apply (proj2 (missing_ids_are_not_found draft_world) "Z" "Law Firm" 1
             "Legal fees" "CFO" None None).
    reflexivity.
Defined.

(** ** The two utilization figures *)



(** ** The expenditures of a budget *)








(** ** Listing budgets *)



Example list_budgets_by_department_and_year :
  exists rows w',
    list_budgets (Some "Finance") (Some 2025%Z) three_budgets_world = (Ok rows, w') /\
    map b_title rows = ["B2"].
Proof. eexists. eexists. split; vm_compute; reflexivity. Qed.

(** ** Statistics *)




(** ** The executive summary *)

Lemma fold_left_append {A B : Type} (f : A -> list B) (xs : list A) (init : list B) :
  fold_left (fun acc x => acc ++ f x) xs init = init ++ flat_map f xs.
Proof.
  revert init. induction xs as [| x xs IH]; intros init; simpl.
  - rewrite app_nil_r. reflexivity.
  - rewrite IH, <- app_assoc. reflexivity.
Qed.

Lemma fold_left_append_one {A B : Type} (f : A -> B) (xs : list A) (init : list B) :
  fold_left (fun acc x => acc ++ [f x]) xs init = init ++ map f xs.
Proof.
  rewrite (fold_left_append (fun x => [f x])).
  f_equal; induction xs as [| x xs IH]; simpl; congruence.
Qed.

(** [executive_summary] on an existing budget, in closed form. *)
Lemma executive_summary_found (w w' : World) (budget_id : string)
    (v : VarianceReport) (rep : ComplianceReport) :
  get_variance budget_id w = (Ok v, w) ->
  compliance_check budget_id w = (Ok rep, w') ->
  executive_summary budget_id w = (Ok (summary_text v rep), w').
Proof.
  intros Hv Hc. unfold executive_summary.
  unfold bind at 1. rewrite Hv. unfold bind at 1. rewrite Hc.
  unfold ret, summary_text, block, status_line. f_equal. f_equal.
  rewrite fold_left_append.
  destruct (c_issues rep) as [| i irest]; destruct (c_warnings rep) as [| x xrest];
    rewrite ?fold_left_append_one, ?app_nil_r, <- ?app_assoc; simpl;
    rewrite <- ?app_assoc; reflexivity.
Qed.

Lemma in_summary_text (v : VarianceReport) (rep : ComplianceReport) (l : text_line) :
  In l (summary_text v rep) <->
  In l (summary_head v) \/
  (exists lv, In lv (v_lines v) /\ In l (summary_item lv)) \/
  In l [[Lit EmptyString]; [Lit "COMPLIANCE STATUS"]; [Lit (replicate 40 "-")];
        status_line (c_compliant rep)] \/
  In l (block "  Issues:" issue_line (c_issues rep)) \/
  In l (block "  Warnings:" warning_line (c_warnings rep)) \/
  l = [Lit (replicate 65 "=")].
Proof.
  unfold summary_text. rewrite !in_app_iff, in_flat_map.
  assert (Hlast : In l [[Lit (replicate 65 "=")]] <-> l = [Lit (replicate 65 "=")])
    by (simpl; split; [intros [H | []]; auto | auto]).
  rewrite Hlast. tauto.
Qed.

Lemma in_block {A : Type} (title : string) (line : A -> text_line) (xs : list A)
    (l : text_line) :
  In l (block title line xs) <->
  xs <> [] /\ (l = [Lit title] \/ exists x, In x xs /\ l = line x).
Proof.
  unfold block. destruct xs as [| x xs].
  - simpl. split; [tauto | intros [H _]; congruence].
  - split.
    + intros [H | H].
      * split; [discriminate | left; auto].
      * apply in_map_iff in H. destruct H as (y & <- & Hy).
        split; [discriminate | right; eauto].
    + intros [_ [-> | (y & Hy & ->)]].
      * left. reflexivity.
      * right. apply in_map. exact Hy.
Qed.

Ltac other_lines H :=
  simpl in H; repeat (destruct H as [H | H]; [try discriminate |]);
  try contradiction; try discriminate.

Ltac summary_cases H :=
  apply in_summary_text in H;
  destruct H as [H | [(?lv & _ & H) | [H | [H | [H | H]]]]];
  [ other_lines H
  | other_lines H
  | other_lines H
  | apply in_block in H; destruct H as [? [H | (? & ? & H)]]; try discriminate
  | apply in_block in H; destruct H as [? [H | (? & ? & H)]]; try discriminate
  | try discriminate ].

Lemma summary_text_length (v : VarianceReport) (rep : ComplianceReport) :
  List.length (summary_text v rep)
  = (24 + 2 * List.length (v_lines v)
     + List.length (block "  Issues:" issue_line (c_issues rep))
     + List.length (block "  Warnings:" warning_line (c_warnings rep)))%nat.
Proof.
  assert (Hitems : forall xs, List.length (flat_map summary_item xs)
                              = (2 * List.length xs)%nat).
  { induction xs as [| x xs IH]; [reflexivity |].
    cbn [flat_map]. rewrite length_app, IH. cbn [summary_item List.length]. lia. }
  unfold summary_text. rewrite !length_app, Hitems.
  cbn [summary_head List.length]. lia.
Qed.

Lemma summary_text_lines (v : VarianceReport) (rep : ComplianceReport) :
  (c_compliant rep = true <-> c_issues rep = []) ->
  let t := summary_text v rep in
  (In (status_line true) t <-> c_issues rep = []) /\
  (In (status_line false) t <-> c_issues rep <> []) /\
  (In [Lit "  Issues:"] t <-> c_issues rep <> []) /\
  (In [Lit "  Warnings:"] t <-> c_warnings rep <> []) /\
  (forall i, In (issue_line i) t <-> In i (c_issues rep)) /\
  (forall x, In (warning_line x) t <-> In x (c_warnings rep)) /\
  (forall lv l, In lv (v_lines v) -> In l (summary_item lv) -> In l t).
Proof.
  intros Hcomp t. subst t.
  split; [| split; [| split; [| split; [| split; [| split]]]]].
  - split.
    + intros H. apply Hcomp. summary_cases H.
      unfold status_line in H. destruct (c_compliant rep); [reflexivity | discriminate].
    + intros H. apply Hcomp in H. apply in_summary_text. right. right. left.
      rewrite H. simpl. auto.
  - split.
    + intros H Hn. apply Hcomp in Hn. summary_cases H.
      unfold status_line in H. rewrite Hn in H. discriminate.
    + intros H. apply in_summary_text. right. right. left.
      destruct (c_compliant rep) eqn:E; [exfalso; apply H, Hcomp; reflexivity |].
      simpl. auto.
  - split.
    + intros H. summary_cases H. assumption.
    + intros H. apply in_summary_text. do 3 right. left.
      apply in_block. auto.
  - split.
    + intros H. summary_cases H. assumption.
    + intros H. apply in_summary_text. do 4 right. left.
      apply in_block. auto.
  - intros i. split.
    + intros H. summary_cases H.
      unfold issue_line in H. inversion H; subst. assumption.
    + intros H. apply in_summary_text. do 3 right. left.
      apply in_block. split; [intros E; rewrite E in H; contradiction |].
      right. eauto.
  - intros x. split.
    + intros H. summary_cases H.
      unfold warning_line in H. inversion H; subst. assumption.
    + intros H. apply in_summary_text. do 4 right. left.
      apply in_block. split; [intros E; rewrite E in H; contradiction |].
      right. eauto.
  - intros lv l Hlv Hl. apply in_summary_text. right. left. eauto.
Qed.

(** X23. The executive summary of an existing budget is consistent with
    the reports it is built on.  It has 24 lines, two more for each line
    item, and for issues and for warnings, if there are any, a title line
    and one line each.  It says "COMPLIANT" exactly when the compliance
    report has no issue and "NON-COMPLIANT" exactly when it has some; the
    title "Issues:" appears exactly when there are issues, the title
    "Warnings:" exactly when there are warnings; the issue lines are
    those of the issues of the report and the warning lines those of its
    warnings; each line item of the variance report has its two lines.  The
    store is left as it was. *)
Theorem executive_summary_contents :
  forall (w : World) (budget_id : string) (b : Budget),
    select_budget (disk w) budget_id = Some b ->
    exists t v rep w',
      executive_summary budget_id w = (Ok t, w') /\
      get_variance budget_id w = (Ok v, w) /\
      compliance_check budget_id w = (Ok rep, w') /\
      disk w' = disk w /\
      List.length t
        = (24 + 2 * List.length (v_lines v)
           + List.length (block "  Issues:" issue_line (c_issues rep))
           + List.length (block "  Warnings:" warning_line (c_warnings rep)))%nat /\
      (In (status_line true) t <-> c_issues rep = []) /\
      (In (status_line false) t <-> c_issues rep <> []) /\
      (In [Lit "  Issues:"] t <-> c_issues rep <> []) /\
      (In [Lit "  Warnings:"] t <-> c_warnings rep <> []) /\
      (forall i, In (issue_line i) t <-> In i (c_issues rep)) /\
      (forall x, In (warning_line x) t <-> In x (c_warnings rep)) /\
      (forall lv l, In lv (v_lines v) -> In l (summary_item lv) -> In l t).
Proof.
  intros w budget_id b Hsel.
  pose proof (get_variance_found w budget_id b Hsel) as Hv.
  pose proof (compliance_check_found w budget_id _ Hv) as Hc.
  pose proof (report_findings_hold _ _ _ _ _ Hv Hc) as (Hcomp & _).
  eexists. eexists. eexists. eexists.
  split; [apply (executive_summary_found _ _ _ _ _ Hv Hc) |].
  split; [exact Hv |]. split; [exact Hc |]. split; [reflexivity |].
  split; [apply summary_text_length |].
  exact (summary_text_lines _ _ Hcomp).
Qed.

Lemma executive_summary_contents_witness :
  exists t w',
    executive_summary "A" summary_world = (Ok t, w') /\
    List.length t = 32%nat /\
    In (status_line false) t /\
    In (issue_line (OVER_ALLOCATED 1300000)) t /\
    In (warning_line (MISSING_RECEIPTS 1)) t.
Proof.
  assert (Hsel : exists b, select_budget (disk summary_world) "A" = Some b)
    by (eexists; vm_compute; reflexivity).
  destruct Hsel as (b & Hsel).
  destruct (executive_summary_contents summary_world "A" b Hsel)
    as (t & v & rep & w' & He & Hv & Hc & _ & Hlen & _ & Hnon & _ & _ & Hiss & Hwarn & _).
  exists t, w'. split; [exact He |].
  vm_compute in Hv. inversion Hv; subst v.
  vm_compute in Hc. inversion Hc; subst rep.
  split; [rewrite Hlen; reflexivity |].
  split; [apply Hnon; discriminate |].
  split; [apply Hiss; left; reflexivity | apply Hwarn; left; reflexivity].
Defined.

(** ** The command line *)

Lemma report_leaves_store (w : World) (budget_id : string) :
  (exists r, get_variance budget_id w = (r, w)) /\
  (exists r w', compliance_check budget_id w = (r, w') /\ disk w' = disk w) /\
  (exists r w', executive_summary budget_id w = (r, w') /\ disk w' = disk w).
Proof.
  destruct (select_budget (disk w) budget_id) as [b |] eqn:Hsel.
  - pose proof (get_variance_found w budget_id b Hsel) as Hv.
    pose proof (compliance_check_found w budget_id _ Hv) as Hc.
    pose proof (executive_summary_found _ _ _ _ _ Hv Hc) as He.
    split; [eexists; exact Hv |].
    split; (eexists; eexists; split; [eassumption | reflexivity]).
  - pose proof (get_variance_not_found w budget_id Hsel) as Hv.
    split; [eexists; exact Hv |].
    split; eexists; exists w; (split; [| reflexivity]).
    + unfold compliance_check, bind. rewrite Hv. reflexivity.
    + unfold executive_summary, bind. rewrite Hv. reflexivity.
Qed.

Lemma list_all_length (w : World) :
  exists rows, list_budgets None None w = (Ok rows, w) /\
               List.length rows = List.length (budgets (disk w)).
Proof.
  unfold list_budgets. unfold_m. eexists. split; [reflexivity |].
  rewrite (Permutation_length (sort_by_permutation _ _)).
  induction (budgets (disk w)) as [| b bs IH]; simpl; [reflexivity | now rewrite IH].
Qed.

Lemma reports_not_found (w : World) (budget_id : string) :
  select_budget (disk w) budget_id = None ->
  get_variance budget_id w = (Raise (ValueError NotFound), w) /\
  compliance_check budget_id w = (Raise (ValueError NotFound), w) /\
  executive_summary budget_id w = (Raise (ValueError NotFound), w).
Proof.
  intros Hsel. pose proof (get_variance_not_found w budget_id Hsel) as Hv.
  split; [exact Hv |].
  split; [unfold compliance_check | unfold executive_summary];
    unfold bind; rewrite Hv; reflexivity.
Qed.

Ltac known_command :=
  let Hn := fresh in intros Hn; exfalso; apply Hn; simpl; auto 6.

Ltac no_such_command H :=
  simpl in H; repeat (destruct H as [H | H]; [subst; try discriminate; try congruence |]);
  try contradiction.

(** X24. The command line never changes the store.  Without a command it
    prints the two usage lines.  A command other than stats, list, summary,
    variance and compliance prints "Unknown command" with its name: so do
    create, add-line, approve, activate and spend, which the usage line
    advertises.  summary, variance and compliance given without a budget
    identifier print "Unknown command" as well, and given an identifier
    that is not in the store they end with the not found error.  list
    prints one line for each budget of the store. *)
Theorem cli_commands :
  forall (argv : list string) (w : World),
    exists r w',
      cli argv w = (r, w') /\
      disk w' = disk w /\
      ((List.length argv < 2)%nat -> r = Ok usage) /\
      (forall prog cmd rest, argv = prog :: cmd :: rest ->
         (~ In cmd implemented -> r = Ok (unknown_command cmd)) /\
         (In cmd ["create"; "add-line"; "approve"; "activate"; "spend"] ->
            r = Ok (unknown_command cmd)) /\
         (In cmd needs_id -> rest = [] -> r = Ok (unknown_command cmd)) /\
         (In cmd needs_id -> forall id more, rest = id :: more ->
            select_budget (disk w) id = None -> r = Raise (ValueError NotFound)) /\
         (cmd = "list" ->
            exists out, r = Ok out /\
                        List.length out = List.length (budgets (disk w)))).
Proof.
  intros argv w.
  assert (Hadv : forall cmd (r : result (list printed)),
            (~ In cmd implemented -> r = Ok (unknown_command cmd)) ->
            In cmd ["create"; "add-line"; "approve"; "activate"; "spend"] ->
            r = Ok (unknown_command cmd)).
  { intros cmd r Hr Hin. apply Hr. intros Himp. simpl in Hin, Himp.
    repeat (destruct Hin as [<- | Hin]; [intuition discriminate |]).
    contradiction. }
  destruct argv as [| prog [| cmd rest]].
  - exists (Ok usage), w. split; [reflexivity |]. split; [reflexivity |].
    split; [reflexivity | discriminate].
  - exists (Ok usage), w. split; [reflexivity |]. split; [reflexivity |].
    split; [reflexivity | discriminate].
  - destruct (list_all_length w) as (rows & Hlist & Hlen).
    destruct (report_leaves_store w (nth 0 rest EmptyString))
      as ((rv & Hv) & (rc & wc & Hc & Hdc) & (re & we & He & Hde)).
    unfold cli. unfold init_db, bind, ret.
    replace (Nat.ltb (List.length (prog :: cmd :: rest)) 2) with false by reflexivity.
    cbn [nth].
    destruct (String.eqb cmd "stats") eqn:Estats.
    { apply String.eqb_eq in Estats. subst cmd.
      eexists. exists w. split; [reflexivity |]. split; [reflexivity |].
      split; [simpl; lia |].
      intros prog' cmd' rest' Heq. inversion Heq; subst prog' cmd' rest'.
      split; [known_command | split; [apply Hadv; known_command |]].
      split; [intros H; no_such_command H |].
      split; [intros H; no_such_command H | discriminate]. }
    destruct (String.eqb cmd "list") eqn:Elist.
    { apply String.eqb_eq in Elist. subst cmd. rewrite Hlist.
      eexists. exists w. split; [reflexivity |]. split; [reflexivity |].
      split; [simpl; lia |].
      intros prog' cmd' rest' Heq. inversion Heq; subst prog' cmd' rest'.
      split; [known_command | split; [apply Hadv; known_command |]].
      split; [intros H; no_such_command H |].
      split; [intros H; no_such_command H |].
      intros _. eexists. split; [reflexivity |]. rewrite length_map. exact Hlen. }
    destruct rest as [| id more].
    { cbn [List.length Nat.leb]. rewrite !andb_false_r.
      eexists. exists w. split; [reflexivity |]. split; [reflexivity |].
      split; [simpl; lia |].
      intros prog' cmd' rest' Heq. inversion Heq; subst prog' cmd' rest'.
      split; [reflexivity | split; [reflexivity |]].
      split; [reflexivity |].
      split; [discriminate |].
      intros ->. discriminate. }
    cbn [List.length Nat.leb nth] in *. rewrite !andb_true_r.
    destruct (String.eqb cmd "summary") eqn:Esum.
    { apply String.eqb_eq in Esum. subst cmd. rewrite He.
      exists (match re with Ok t => Ok [Lines t] | Raise e => Raise e end), we.
      split; [destruct re; reflexivity |]. split; [exact Hde |].
      split; [simpl; lia |].
      intros prog' cmd' rest' Heq. inversion Heq; subst prog' cmd' rest'.
      split; [known_command | split; [apply Hadv; known_command |]].
      split; [discriminate |].
      split; [| discriminate].
      intros _ id' more' Hr Hsel. inversion Hr; subst id' more'.
      destruct (reports_not_found w id Hsel) as (_ & _ & Hm).
      rewrite Hm in He. inversion He; subst. reflexivity. }
    destruct (String.eqb cmd "variance") eqn:Evar.
    { apply String.eqb_eq in Evar. subst cmd. rewrite Hv.
      exists (match rv with Ok t => Ok [JsonVariance t] | Raise e => Raise e end), w.
      split; [destruct rv; reflexivity |]. split; [reflexivity |].
      split; [simpl; lia |].
      intros prog' cmd' rest' Heq. inversion Heq; subst prog' cmd' rest'.
      split; [known_command | split; [apply Hadv; known_command |]].
      split; [discriminate |].
      split; [| discriminate].
      intros _ id' more' Hr Hsel. inversion Hr; subst id' more'.
      destruct (reports_not_found w id Hsel) as (Hm & _ & _).
      rewrite Hm in Hv. inversion Hv; subst. reflexivity. }
    destruct (String.eqb cmd "compliance") eqn:Ecom.
    { apply String.eqb_eq in Ecom. subst cmd. rewrite Hc.
      exists (match rc with Ok t => Ok [JsonCompliance t] | Raise e => Raise e end), wc.
      split; [destruct rc; reflexivity |]. split; [exact Hdc |].
      split; [simpl; lia |].
      intros prog' cmd' rest' Heq. inversion Heq; subst prog' cmd' rest'.
      split; [known_command | split; [apply Hadv; known_command |]].
      split; [discriminate |].
      split; [| discriminate].
      intros _ id' more' Hr Hsel. inversion Hr; subst id' more'.
      destruct (reports_not_found w id Hsel) as (_ & Hm & _).
      rewrite Hm in Hc. inversion Hc; subst. reflexivity. }
    eexists. exists w. split; [reflexivity |]. split; [reflexivity |].
    split; [simpl; lia |].
    intros prog' cmd' rest' Heq. inversion Heq; subst prog' cmd' rest'.
    split; [reflexivity | split; [reflexivity |]].
    split; [reflexivity |].
    split; [intros H; exfalso; no_such_command H |].
    intros ->. discriminate.
Qed.

Lemma cli_commands_witness :
  exists r w',
    cli ["budget_tracker.py"; "create"; "FY2025 Budget"] cloud_world = (r, w') /\
    disk w' = disk cloud_world /\
    r = Ok (unknown_command "create").
Proof.
  destruct (cli_commands ["budget_tracker.py"; "create"; "FY2025 Budget"] cloud_world)
    as (r & w' & Hcli & Hdisk & _ & Hcmd).
  exists r, w'. split; [exact Hcli |]. split; [exact Hdisk |].
  destruct (Hcmd "budget_tracker.py" "create" ["FY2025 Budget"] eq_refl)
    as (_ & Hadvertised & _).
  apply Hadvertised. simpl. auto.
Defined.
